(** * Bearpush: the upload handler and the server life cycle

    A shallow embedding of [cmd/bearpush/main.go]: the handler registered for
    [POST /v1/upload/:product] (lines 136-215), the shutdown sequence of the
    main action (lines 226-238) and the action of [product new]
    (lines 50-92).

    The handler talks to the operating system (temporary directories, the
    uploaded file, a child process and its pipes).  Every such call is modelled
    as a step of a small state-and-panic monad over a [World]; the answers the
    operating system gives are collected in a record [OS], so that the handler
    is a total, executable function of the catalog, the request and the
    answers of the system. *)

From Stdlib Require Import ZArith List String Ascii Bool Lia.
From stdpp Require Import gmap strings list fin_maps pretty.

Local Open Scope string_scope.
Local Open Scope Z_scope.
Local Open Scope list_scope.

(** ** Go values *)

(** A Go [error]: [nil] is [None], a non-nil error carries its text. *)
Definition error : Type := option string.

Inductive result (A : Type) : Type :=
| Ok (a : A)
| Err (e : string).
Arguments Ok {A} a.
Arguments Err {A} e.

Definition nl : string := String (ascii_of_nat 10) EmptyString.

(** [net/http] status codes used by the handler. *)
Module http.
Definition StatusOK : Z := 200.
Definition StatusBadRequest : Z := 400.
Definition StatusUnprocessableEntity : Z := 422.
Definition StatusInternalServerError : Z := 500.
End http.

(** ** Data model *)

(** [bearpush.Product]: the handler reads the field [Script] only. *)
Record Product : Type := { Script : string }.

(** [bearpush.Context]: [Products] is a Go [map[string]*Product]. *)
Record Context : Type := { Products : gmap string Product }.

(** [multipart.FileHeader], as returned by [c.FormFile]. *)
Record FileHeader : Type := { Filename : string; Size : Z }.

(** The part of [gin.Context] the handler reads: the route parameter
    [:product] and the outcome of [c.FormFile("artifact")]. *)
Record Request : Type := {
  Param_product : string;
  FormFile_artifact : result FileHeader
}.

(** [gin.H] is a [map[string]interface{}]; the handler stores integers and
    strings in it. *)
Inductive JValue : Type :=
| JInt (n : Z)
| JStr (s : string).

Inductive Body : Type :=
| JSONBody (h : gmap string JValue)
| TextBody (s : string)
| NoBody.

Record Response : Type := { status : Z; body : Body }.

(** [exec.Cmd]: what [exec.Command(p.Script)] builds and the handler then
    fills in.  [Stdin] stays [nil] ([None]): the child then reads from the
    null device. *)
Record Cmd : Type := {
  Path : string;
  Args : list string;
  Env : list string;
  Stdin : option string
}.

Inductive Stream : Type := Stdout | Stderr.

(** ** The answers of the operating system during one request *)

Record OS : Type := {
  (** [os.Environ()] *)
  Environ : list string;
  (** [ioutil.TempDir("", "bearpush-")] *)
  TempDir_result : result string;
  (** [c.SaveUploadedFile(file, artifactPath)] *)
  SaveUploadedFile_result : error;
  (** [cmd.StdoutPipe()], [cmd.StderrPipe()]: [os.Pipe] may fail *)
  StdoutPipe_result : error;
  StderrPipe_result : error;
  (** [cmd.Start()] *)
  Start_result : error;
  (** what [io.ReadAll] gets from each pipe of a started child *)
  ReadAll_result : Stream -> result string;
  (** the exit status of a started child; [-1] when killed by a signal *)
  ExitStatus : Z;
  (** [os.RemoveAll] on the temporary directory *)
  RemoveAll_result : error;
  (** [exec.LookPath(name)], which [exec.Command] asks for a name without a
      slash: the path found on [PATH], the empty string when there is
      none.  The error of a failed lookup is returned by [cmd.Start], so it
      is part of [Start_result]. *)
  LookPath_result : string -> string;
  (** the signal that ended a started child, when one did ([ExitStatus] is
      then [-1]), as [ProcessState.String] names it: [killed],
      [segmentation fault (core dumped)] *)
  ExitSignal : string
}.

(** ** The world of one request *)

Inductive Level : Type := LInfo | LWarn | LError | LFatal.

Inductive Event : Type :=
| EvLog (lvl : Level) (msg : string)
| EvTempDir (r : result string)
| EvSave (dst : string) (err : error)
| EvStart (cmd : Cmd) (err : error)
| EvReadAll (s : Stream)
| EvWait (err : error)
| EvRemoveAll (dir : string) (err : error).

Record World : Type := {
  (** the paths that exist on disk *)
  fs : gset string;
  (** what happened so far, oldest first *)
  trace : list Event;
  (** what the handler wrote to the [gin.Context] *)
  written : option Response;
  (** [cmd.Process != nil] *)
  started : bool
}.

Definition log_event (e : Event) (w : World) : World :=
  {| fs := fs w; trace := trace w ++ [e]; written := written w;
     started := started w |}.

Definition set_fs (f : gset string) (w : World) : World :=
  {| fs := f; trace := trace w; written := written w; started := started w |}.

Definition set_written (r : Response) (w : World) : World :=
  {| fs := fs w; trace := trace w; written := Some r; started := started w |}.

Definition set_started (b : bool) (w : World) : World :=
  {| fs := fs w; trace := trace w; written := written w; started := b |}.

(** ** A state monad with panics *)

Inductive outcome (A : Type) : Type :=
| Returned (a : A)
| Panicked (msg : string).
Arguments Returned {A} a.
Arguments Panicked {A} msg.

Definition M (A : Type) : Type := World -> outcome A * World.

#[global] Instance M_ret : MRet M := fun A a w => (Returned a, w).

#[global] Instance M_bind : MBind M := fun A B f m w =>
  match m w with
  | (Returned a, w') => f a w'
  | (Panicked msg, w') => (Panicked msg, w')
  end.

Definition panic {A : Type} (msg : string) : M A := fun w => (Panicked msg, w).

Definition emit (e : Event) : M unit := fun w => (Returned tt, log_event e w).

(** Go's [defer f()] placed in front of [body]: [f] runs when the function
    is left, whether [body] returned or panicked; a panic keeps unwinding
    after the deferred call. *)
Definition defer {A : Type} (f : M unit) (body : M A) : M A := fun w =>
  match body w with
  | (o, w') =>
      match f w' with
      | (Returned _, w'') => (o, w'')
      | (Panicked msg, w'') => (Panicked msg, w'')
      end
  end.

(** ** [path.Join] and [path.Clean] (Go's package [path])

    [Clean] is modelled on the components of the path: empty components and
    [.] are dropped, [..] removes the component before it, or stays when
    there is none to remove and the path is not rooted. *)

Fixpoint split_slash (cur s : string) : list string :=
  match s with
  | EmptyString => [cur]
  | String c s' =>
      if Ascii.eqb c "/"%char then cur :: split_slash "" s'
      else split_slash (cur +:+ String c "") s'
  end.

(** The components kept so far are held newest first. *)
Definition clean_step (rooted : bool) (out : list string) (c : string)
  : list string :=
  if decide (c = "" ∨ c = ".") then out
  else if decide (c = "..") then
    match out with
    | [] => if rooted then [] else [".."]
    | top :: rest => if decide (top = "..") then ".." :: out else rest
    end
  else c :: out.

Definition join_slash (l : list string) : string :=
  match l with
  | [] => ""
  | c :: l' => fold_left (fun acc d => acc +:+ "/" +:+ d) l' c
  end.

(** [path.IsAbs]: [len(path) > 0 && path[0] == '/']. *)
Definition path_IsAbs (p : string) : bool :=
  match p with
  | String ch _ => Ascii.eqb ch "/"
  | EmptyString => false
  end.

Definition path_Clean (p : string) : string :=
  if decide (p = "") then "."
  else
    let rooted := path_IsAbs p in
    let kept := rev (fold_left (clean_step rooted) (split_slash "" p) []) in
    if rooted then "/" +:+ join_slash kept
    else if decide (kept = []) then "." else join_slash kept.

(** [path.Join(a, b)]: the non-empty elements joined by a slash, cleaned;
    the empty string when both are empty. *)
Definition path_Join (a b : string) : string :=
  if decide (a = "") then
    if decide (b = "") then "" else path_Clean b
  else if decide (b = "") then path_Clean a
  else path_Clean (a +:+ "/" +:+ b).

(** [filepath.Base]: the last element of the path, trailing slashes
    removed first; [.] for the empty path, [/] for a path of slashes only. *)
Fixpoint strip_empty (l : list string) : list string :=
  match l with
  | c :: l' => if String.eqb c "" then strip_empty l' else l
  | [] => []
  end.

Definition filepath_Base (p : string) : string :=
  if decide (p = "") then "."
  else
    match strip_empty (rev (split_slash "" p)) with
    | [] => "/"
    | c :: _ => c
    end.

(** The components that [path.Clean] keeps, in order. *)
Definition kept_components (p : string) : list string :=
  rev (fold_left (clean_step (path_IsAbs p)) (split_slash "" p) []).

Fixpoint starts_with (pre s : string) : bool :=
  match pre, s with
  | EmptyString, _ => true
  | String a pre', String b s' => Ascii.eqb a b && starts_with pre' s'
  | String _ _, EmptyString => false
  end.

(** [os.RemoveAll dir] on the set of existing paths: [dir] and everything
    below it is gone.  The directory is found under the name given or under
    its cleaned name, which [path.Join] uses for the paths below it; a
    directory that cleans to [/] or to [.] holds the rooted paths, or the
    relative paths that do not leave it. *)
Definition under (dir p : string) : bool :=
  String.eqb p dir
  || match kept_components dir with
     | [] =>
         if path_IsAbs dir then path_IsAbs p
         else negb (path_IsAbs p) && negb (String.eqb p "..")
              && negb (starts_with "../" p)
     | kept =>
         let d := (if path_IsAbs dir then "/" else "") +:+ join_slash kept in
         String.eqb p d || starts_with (d +:+ "/") p
     end.

Definition remove_all (dir : string) (f : gset string) : gset string :=
  filter (fun p => under dir p = false) f.

(** ** The handler *)

Section Handler.

Variable appContext : Context.
Variable os : OS.
Variable c : Request.

(** *** [gin.Context] *)

Definition c_Param_product : string := Param_product c.

Definition c_FormFile_artifact : result FileHeader := FormFile_artifact c.

Definition c_JSON (code : Z) (h : gmap string JValue) : M unit := fun w =>
  (Returned tt, set_written {| status := code; body := JSONBody h |} w).

Definition c_String (code : Z) (s : string) : M unit := fun w =>
  (Returned tt, set_written {| status := code; body := TextBody s |} w).

Definition c_SaveUploadedFile (file : FileHeader) (dst : string) : M error :=
  fun w =>
    match SaveUploadedFile_result os with
    | None => (Returned None,
               log_event (EvSave dst None) (set_fs ({[dst]} ∪ fs w) w))
    | Some e => (Returned (Some e), log_event (EvSave dst (Some e)) w)
    end.

(** *** The logger ([zap.SugaredLogger]) *)

Definition logger_Warn (msg : string) : M unit := emit (EvLog LWarn msg).
Definition logger_Error (msg : string) : M unit := emit (EvLog LError msg).
Definition logger_Errorf (msg : string) : M unit := emit (EvLog LError msg).

(** *** [ioutil.TempDir("", "bearpush-")] *)

Definition ioutil_TempDir : M (result string) := fun w =>
  match TempDir_result os with
  | Ok d => (Returned (Ok d),
             log_event (EvTempDir (Ok d)) (set_fs ({[d]} ∪ fs w) w))
  | Err e => (Returned (Err e), log_event (EvTempDir (Err e)) w)
  end.

(** *** [os/exec] and [io] *)

(** [exec.Command(name)]: a name without a slash is looked up on [PATH],
    and [Path] is what [exec.LookPath] found; a failed lookup leaves the
    name in [Path] and makes [cmd.Start] fail. *)
Definition exec_Command (name : string) : Cmd :=
  let lp := if decide (filepath_Base name = name)
            then LookPath_result os name else "" in
  {| Path := if decide (lp = "") then name else lp;
     Args := [name]; Env := []; Stdin := None |}.

Definition set_Env (cmd : Cmd) (env : list string) : Cmd :=
  {| Path := Path cmd; Args := Args cmd; Env := env; Stdin := Stdin cmd |}.

(** On failure the pipe returned is the [nil] interface ([None]). *)
Definition cmd_StdoutPipe : M (option Stream * error) :=
  mret (match StdoutPipe_result os with
        | None => (Some Stdout, None)
        | Some e => (None, Some e)
        end).

Definition cmd_StderrPipe : M (option Stream * error) :=
  mret (match StderrPipe_result os with
        | None => (Some Stderr, None)
        | Some e => (None, Some e)
        end).

Definition cmd_Start (cmd : Cmd) : M error := fun w =>
  match Start_result os with
  | None => (Returned None, log_event (EvStart cmd None) (set_started true w))
  | Some e => (Returned (Some e), log_event (EvStart cmd (Some e)) w)
  end.

(** [io.ReadAll r] calls [r.Read]: on the [nil] interface that is a nil
    pointer dereference, a run-time panic.  When [Start] failed it has
    closed the pipes, and reading reports that. *)
Definition io_ReadAll (r : option Stream) : M (string * error) :=
  match r with
  | None => panic "runtime error: invalid memory address or nil pointer dereference"
  | Some s => fun w =>
      let w' := log_event (EvReadAll s) w in
      if started w then
        match ReadAll_result os s with
        | Ok data => (Returned (data, None), w')
        | Err e => (Returned ("", Some e), w')
        end
      else (Returned ("", Some "read |0: file already closed"), w')
  end.

(** [cmd.Wait()]: an error when the command was not started or when the
    child did not exit with status 0.  The text of an [ExitError] is the one
    of [ProcessState.String]: the exit status, or the signal for a child
    that a signal ended. *)
Definition cmd_Wait : M error := fun w =>
  let err :=
    if started w then
      if Z.eqb (ExitStatus os) 0 then None
      else if Z.ltb (ExitStatus os) 0 then Some ("signal: " +:+ ExitSignal os)
      else Some ("exit status " +:+ pretty (ExitStatus os))
    else Some "exec: not started" in
  (Returned err, log_event (EvWait err) w).

(** Modelled from the spec: [util.TryRemoveDir], of the package
    [internal/util], which the handler defers and whose source is not part
    of [main.go].  The spec: the directory is removed when the request
    finishes; a failure of this best-effort cleanup is logged and never
    changes the response already computed. *)
Definition util_TryRemoveDir (dir : string) : M unit := fun w =>
  match RemoveAll_result os with
  | None => (Returned tt,
             log_event (EvRemoveAll dir None) (set_fs (remove_all dir (fs w)) w))
  | Some e => (Returned tt,
               log_event (EvLog LWarn e) (log_event (EvRemoveAll dir (Some e)) w))
  end.

(** [if err != nil { f err }] *)
Definition if_err (err : error) (f : string -> M unit) : M unit :=
  match err with
  | Some e => f e
  | None => mret tt
  end.

(** Lines 173-211: the block [if p.Script != "" { ... }].  The result says
    whether the block has executed [return] (after writing the 422). *)
Definition run_script (p : Product) (artifactPath : string) : M bool :=
  if decide (Script p ≠ "") then
    let cmd := exec_Command (Script p) in
    let cmd := set_Env cmd (Environ os ++ ["ARTIFACT_PATH=" +:+ artifactPath]) in
    '(stdoutPipe, err) ← cmd_StdoutPipe;
    if_err err (fun e => logger_Errorf ("Cannot grab stdout pipe: " +:+ e +:+ nl));;
    '(stderrPipe, err) ← cmd_StderrPipe;
    if_err err (fun e => logger_Errorf ("Cannot grab stderr pipe: " +:+ e +:+ nl));;
    err ← cmd_Start cmd;
    if_err err (fun e => logger_Errorf ("Cannot start: " +:+ e +:+ nl));;
    '(_, err) ← io_ReadAll stdoutPipe;
    if_err err (fun e => logger_Errorf ("Cannot read stdout: " +:+ e +:+ nl));;
    '(_, err) ← io_ReadAll stderrPipe;
    if_err err (fun e => logger_Errorf ("Cannot read stderr: " +:+ e +:+ nl));;
    err ← cmd_Wait;
    match err with
    | Some e =>
        logger_Errorf ("Command failed: " +:+ e +:+ nl);;
        c_JSON http.StatusUnprocessableEntity
          {[ "error" := JInt 8;
             "message" := JStr "Pipeline associated with resource errored." ]};;
        mret true
    | None => mret false
    end
  else mret false.

(** Lines 136-215: the handler of [POST /v1/upload/:product]. *)
Definition upload_handler : M unit :=
  let product := c_Param_product in
  match Products appContext !! product with
  | None =>
      c_JSON http.StatusBadRequest
        {[ "error" := JInt 4; "message" := JStr "Resource does not exist." ]}
  | Some p =>
      match c_FormFile_artifact with
      | Err err =>
          logger_Warn err;;
          c_String http.StatusBadRequest ("Error while uploading: " +:+ err)
      | Ok file =>
          r ← ioutil_TempDir;
          match r with
          | Err err =>
              logger_Error err;;
              c_String http.StatusInternalServerError
                "Could not create a temporary directory for artifact. Check logs for details."
          | Ok tempDir =>
              defer (util_TryRemoveDir tempDir) (
                let artifactPath := path_Join tempDir "artifact" in
                err ← c_SaveUploadedFile file artifactPath;
                match err with
                | Some e =>
                    logger_Error ("Cannot save artifact: %s" +:+ e);;
                    c_String http.StatusInternalServerError
                      "Could not save the uploaded artifact. Check logs for details."
                | None =>
                    returned ← run_script p artifactPath;
                    if (returned : bool) then mret tt
                    else
                      c_String http.StatusOK
                        ("Artifact for product " +:+ product +:+ " processed successfully.")
                end)
          end
      end
  end.

End Handler.

(** ** The environment of the child ([os/exec])

    [cmd.Start] does not hand [cmd.Env] to the child as it is: it removes the
    entries whose key comes again later in the list ([dedupEnv]), so that the
    last value of a key is the one the child sees. *)

(** [strings.Index(s, "=")] *)
Fixpoint index_eq (s : string) : option nat :=
  match s with
  | EmptyString => None
  | String ch s' => if Ascii.eqb ch "=" then Some O else S <$> index_eq s'
  end.

(** The key of an entry [key=value]; an entry that begins with [=] has the
    key up to its second [=]. *)
Definition env_key (kv : string) : option string :=
  match index_eq kv with
  | None => None
  | Some O =>
      match kv with
      | String _ rest =>
          match index_eq rest with
          | Some j => Some (String.substring 0 (S j) kv)
          | None => Some ""
          end
      | EmptyString => None
      end
  | Some i => Some (String.substring 0 i kv)
  end.

(** The scan of [dedupEnv], from the last entry to the first; [saw] holds
    the keys met.  An entry without [=] is kept unless it is empty.  (This
    is the scan of current versions of Go; older ones keep the same entries,
    the last value of a key at the place of its first entry.) *)
Fixpoint dedup_from_end (saw : gset string) (env : list string) : list string :=
  match env with
  | [] => []
  | kv :: rest =>
      match env_key kv with
      | None =>
          if decide (kv = "") then dedup_from_end saw rest
          else kv :: dedup_from_end saw rest
      | Some k =>
          if decide (k ∈ saw) then dedup_from_end saw rest
          else kv :: dedup_from_end ({[k]} ∪ saw) rest
      end
  end.

Definition dedupEnv (env : list string) : list string :=
  rev (dedup_from_end ∅ (rev env)).

(** The environment that [cmd.Start] starts the child with. *)
Definition cmd_environ (cmd : Cmd) : list string := dedupEnv (Env cmd).

Definition has_key (k kv : string) : bool :=
  bool_decide (env_key kv = Some k).

(** ** Running one request *)

(** The world when the handler is entered: nothing written, no child. *)
Definition init_world (f : gset string) : World :=
  {| fs := f; trace := []; written := None; started := false |}.

Definition run (ctx : Context) (os : OS) (c : Request) (f : gset string)
  : outcome unit * World :=
  upload_handler ctx os c (init_world f).

(** What the caller receives.  A panic of the handler is caught by the
    recovery middleware installed on line 126 ([ginzap.RecoveryWithZap]),
    which answers [c.AbortWithStatus(500)]: status 500 and no body, unless
    a response was written before. *)
Definition served (r : outcome unit * World) : option Response :=
  match r.1 with
  | Returned _ => written r.2
  | Panicked _ =>
      match written r.2 with
      | Some resp => Some resp
      | None => Some {| status := http.StatusInternalServerError; body := NoBody |}
      end
  end.

Definition is_Start (e : Event) : bool :=
  match e with EvStart _ _ => true | _ => false end.

(** The events that only the script block produces. *)
Definition of_script (e : Event) : bool :=
  match e with
  | EvStart _ _ | EvReadAll _ | EvWait _ => true
  | _ => false
  end.

(** No child process: [cmd.Start] was not even attempted. *)
Definition no_child (w : World) : Prop :=
  forallb (fun e => negb (is_Start e)) (trace w) = true ∧ started w = false.

Definition error_code (r : option Response) : option JValue :=
  match r with
  | Some {| status := _; body := JSONBody h |} => h !! "error"
  | _ => None
  end.

Definition status_of (r : option Response) : option Z :=
  status <$> r.

Definition text_of (r : option Response) : option string :=
  match r with
  | Some {| status := _; body := TextBody s |} => Some s
  | _ => None
  end.

(** ** Names for what the handler builds and answers *)

(** The command of lines 174-177. *)
Definition script_cmd (os : OS) (p : Product) (artifactPath : string) : Cmd :=
  set_Env (exec_Command os (Script p))
          (Environ os ++ ["ARTIFACT_PATH=" +:+ artifactPath]).

Definition resp_unknown_product : Response :=
  {| status := http.StatusBadRequest;
     body := JSONBody {[ "error" := JInt 4;
                         "message" := JStr "Resource does not exist." ]} |}.

Definition resp_bad_upload (e : string) : Response :=
  {| status := http.StatusBadRequest;
     body := TextBody ("Error while uploading: " +:+ e) |}.

Definition resp_no_tempdir : Response :=
  {| status := http.StatusInternalServerError;
     body := TextBody "Could not create a temporary directory for artifact. Check logs for details." |}.

Definition resp_not_saved : Response :=
  {| status := http.StatusInternalServerError;
     body := TextBody "Could not save the uploaded artifact. Check logs for details." |}.

Definition resp_pipeline_errored : Response :=
  {| status := http.StatusUnprocessableEntity;
     body := JSONBody {[ "error" := JInt 8;
                         "message" := JStr "Pipeline associated with resource errored." ]} |}.

Definition resp_processed (product : string) : Response :=
  {| status := http.StatusOK;
     body := TextBody ("Artifact for product " +:+ product +:+ " processed successfully.") |}.

Definition resp_recovered : Response :=
  {| status := http.StatusInternalServerError; body := NoBody |}.

Definition nil_dereference : string :=
  "runtime error: invalid memory address or nil pointer dereference".

(** The response as a function of the catalog, the request and the answers
    of the system; [served_run] below shows that this is what the handler
    serves. *)
Definition response_of (ctx : Context) (os : OS) (c : Request) : Response :=
  match Products ctx !! Param_product c with
  | None => resp_unknown_product
  | Some p =>
      match FormFile_artifact c with
      | Err e => resp_bad_upload e
      | Ok _ =>
          match TempDir_result os, SaveUploadedFile_result os with
          | Err _, _ => resp_no_tempdir
          | Ok _, Some _ => resp_not_saved
          | Ok _, None =>
              if decide (Script p = "") then resp_processed (Param_product c)
              else
                match StdoutPipe_result os, StderrPipe_result os with
                | None, None =>
                    if bool_decide (Start_result os ≠ None ∨ ExitStatus os ≠ 0)
                    then resp_pipeline_errored
                    else resp_processed (Param_product c)
                | _, _ => resp_recovered
                end
          end
      end
  end.

(** The events the script block can add to the trace, and what each tells
    about the answers of the system: the block was entered, the command
    started is the one of lines 174-177, and [cmd.Wait] is only reached with
    both pipes. *)
Definition script_event (os : OS) (p : Product) (cmd : Cmd) (e : Event) : Prop :=
  Script p ≠ ""
  ∧ match e with
    | EvLog LError _ | EvReadAll _ => True
    | EvStart cmd' err => cmd' = cmd ∧ err = Start_result os
    | EvWait _ => StdoutPipe_result os = None ∧ StderrPipe_result os = None
    | _ => False
    end.

(** The events of the deferred cleanup. *)
Definition cleanup_events (os : OS) (d : string) : list Event :=
  match RemoveAll_result os with
  | None => [EvRemoveAll d None]
  | Some e => [EvRemoveAll d (Some e); EvLog LWarn e]
  end.

(** The handler once the artifact is staged (lines 173-214). *)
Definition after_staging (os : OS) (c : Request) (p : Product) (d : string)
  : M unit :=
  returned ← run_script os p (path_Join d "artifact");
  if (returned : bool) then mret tt
  else c_String http.StatusOK
         ("Artifact for product " +:+ Param_product c +:+ " processed successfully.").

(** The world when staging is done. *)
Definition staged_world (f : gset string) (d : string) : World :=
  log_event (EvSave (path_Join d "artifact") None)
    (set_fs ({[path_Join d "artifact"]} ∪ ({[d]} ∪ f))
       (log_event (EvTempDir (Ok d)) (init_world f))).

(** The temporary directory that a request created is gone when the
    request completes. *)
Definition tempdir_always_removed : Prop :=
  ∀ ctx os c f d,
    EvTempDir (Ok d) ∈ trace (run ctx os c f).2 →
    d ∉ fs (run ctx os c f).2.

(** The same system with another answer of [os.RemoveAll]. *)
Definition set_RemoveAll (r : error) (os : OS) : OS :=
  {| Environ := Environ os; TempDir_result := TempDir_result os;
     SaveUploadedFile_result := SaveUploadedFile_result os;
     StdoutPipe_result := StdoutPipe_result os;
     StderrPipe_result := StderrPipe_result os;
     Start_result := Start_result os; ReadAll_result := ReadAll_result os;
     ExitStatus := ExitStatus os; RemoveAll_result := r;
     LookPath_result := LookPath_result os; ExitSignal := ExitSignal os |}.

(** The value of [ARTIFACT_PATH] is an absolute path, for every command the
    handler starts. *)
Definition artifact_path_is_absolute : Prop :=
  ∀ ctx os c f cmd err,
    EvStart cmd err ∈ trace (run ctx os c f).2 →
    ∃ path, Env cmd = Environ os ++ ["ARTIFACT_PATH=" +:+ path]
            ∧ path_IsAbs path = true.

(** ** Two runs that differ in diagnostic detail only

    The same steps succeed and fail in both; the texts of the errors, what
    the child printed and the non-zero exit status may differ. *)

Definition same_error (e1 e2 : error) : Prop := e1 = None ↔ e2 = None.

Definition same_result {A : Type} (r1 r2 : result A) : Prop :=
  match r1, r2 with
  | Ok a1, Ok a2 => a1 = a2
  | Err _, Err _ => True
  | _, _ => False
  end.

Definition same_read (r1 r2 : result string) : Prop :=
  match r1, r2 with
  | Ok _, Ok _ | Err _, Err _ => True
  | _, _ => False
  end.

Record same_but_details (os1 os2 : OS) (c1 c2 : Request) : Prop := {
  sd_product : Param_product c1 = Param_product c2;
  sd_formfile : same_result (FormFile_artifact c1) (FormFile_artifact c2);
  sd_environ : Environ os1 = Environ os2;
  sd_tempdir : same_result (TempDir_result os1) (TempDir_result os2);
  sd_save : same_error (SaveUploadedFile_result os1) (SaveUploadedFile_result os2);
  sd_stdout : same_error (StdoutPipe_result os1) (StdoutPipe_result os2);
  sd_stderr : same_error (StderrPipe_result os1) (StderrPipe_result os2);
  sd_start : same_error (Start_result os1) (Start_result os2);
  sd_read : ∀ s, same_read (ReadAll_result os1 s) (ReadAll_result os2 s);
  sd_exit : ExitStatus os1 = 0 ↔ ExitStatus os2 = 0;
  sd_remove : same_error (RemoveAll_result os1) (RemoveAll_result os2)
}.

(** The request named a product of the catalog and was not answered 200:
    it ended in a staging or an invocation failure. *)
Definition ends_in_failure (ctx : Context) (os : OS) (c : Request)
    (f : gset string) : Prop :=
  is_Some (Products ctx !! Param_product c)
  ∧ status_of (served (run ctx os c f)) ≠ Some http.StatusOK.

(** The body sent after a staging or invocation failure does not vary with
    the diagnostic detail. *)
Definition failure_body_is_generic : Prop :=
  ∀ ctx os1 os2 c1 c2 f,
    same_but_details os1 os2 c1 c2 →
    ends_in_failure ctx os1 c1 f →
    body <$> served (run ctx os1 c1 f) = body <$> served (run ctx os2 c2 f).

(** ** The handler and the child over two pipes (lines 193-203)

    The steps [io_ReadAll] and [cmd_Wait] above take the answer of the system
    as given.  Whether the system ever answers is a matter of the handler and
    the child running side by side over two pipes of bounded capacity; this is
    the transition system below.  The child is the sequence of its blocking
    writes, after which it exits, closing its ends of the pipes.

    [capacity] bounds the bytes a pipe holds.  A real pipe never holds more
    (65536 bytes on Linux), but it may refuse a write before that: Linux
    keeps the bytes in 16 pages, and a write that does not fit into the
    last page takes a new one.  So every run of the real handler and child
    is a run of this system, and a state in which nobody can move here is
    one in which nobody can move there: what is shown below to block,
    blocks.  The converse does not hold, and nothing is concluded from the
    absence of a deadlock in this system. *)

Inductive Action : Type :=
| Write (s : Stream) (n : N).

(** The blocking calls of the handler, in the order of the source. *)
Inductive Op : Type :=
| OpReadAll (s : Stream)
| OpWait.

(** Line 193 [io.ReadAll(stdoutPipe)], line 198 [io.ReadAll(stderrPipe)],
    line 203 [cmd.Wait()]. *)
Definition drain_then_wait : list Op :=
  [OpReadAll Stdout; OpReadAll Stderr; OpWait].

(** The blocking calls recorded in the trace of a request. *)
Definition op_of_event (e : Event) : option Op :=
  match e with
  | EvReadAll s => Some (OpReadAll s)
  | EvWait _ => Some OpWait
  | _ => None
  end.

Definition blocking_calls (w : World) : list Op := omap op_of_event (trace w).

Record Sys : Type := {
  (** what the child still has to do; [None] once it has exited *)
  child : option (list Action);
  (** the bytes written and not yet read, per pipe *)
  in_stdout : N;
  in_stderr : N;
  (** the blocking calls the handler still has to make *)
  parent : list Op
}.

Definition buffered (s : Stream) (st : Sys) : N :=
  match s with Stdout => in_stdout st | Stderr => in_stderr st end.

Definition set_buffered (s : Stream) (n : N) (st : Sys) : Sys :=
  match s with
  | Stdout => {| child := child st; in_stdout := n; in_stderr := in_stderr st;
                 parent := parent st |}
  | Stderr => {| child := child st; in_stdout := in_stdout st; in_stderr := n;
                 parent := parent st |}
  end.

Definition set_child (ch : option (list Action)) (st : Sys) : Sys :=
  {| child := ch; in_stdout := in_stdout st; in_stderr := in_stderr st;
     parent := parent st |}.

Definition set_parent (ops : list Op) (st : Sys) : Sys :=
  {| child := child st; in_stdout := in_stdout st; in_stderr := in_stderr st;
     parent := ops |}.

(** The child has just been started by [cmd.Start]. *)
Definition spawn (script : list Action) : Sys :=
  {| child := Some script; in_stdout := 0; in_stderr := 0;
     parent := drain_then_wait |}.

Definition after_write (s : Stream) (n k : N) (rest : list Action)
  : list Action :=
  if decide (k = n) then rest else Write s (n - k) :: rest.

Section PipeModel.

(** The capacity of a pipe in bytes (65536 on Linux). *)
Variable capacity : N.

Inductive step : Sys → Sys → Prop :=
| step_write s n k rest st :
    (** a blocking [write] moves as many bytes as fit, and goes on when
        there is room again *)
    child st = Some (Write s n :: rest) →
    (0 < k)%N → (k ≤ n)%N → (buffered s st + k ≤ capacity)%N →
    step st (set_child (Some (after_write s n k rest))
               (set_buffered s (buffered s st + k) st))
| step_write_nothing s rest st :
    child st = Some (Write s 0 :: rest) →
    step st (set_child (Some rest) st)
| step_exit st :
    child st = Some [] →
    step st (set_child None st)
| step_read s k ops st :
    (** [ReadAll] takes what is in the pipe *)
    parent st = OpReadAll s :: ops →
    (0 < k)%N → (k ≤ buffered s st)%N →
    step st (set_buffered s (buffered s st - k) st)
| step_eof s ops st :
    (** end of file: the pipe is empty and its write end is closed *)
    parent st = OpReadAll s :: ops →
    buffered s st = 0%N → child st = None →
    step st (set_parent ops st)
| step_wait ops st :
    parent st = OpWait :: ops → child st = None →
    step st (set_parent ops st).

(** The handler is through with the child. *)
Definition completed (st : Sys) : Prop := parent st = [].

Definition stuck (st : Sys) : Prop := ∀ st', ¬ step st st'.

(** A reachable state in which nobody can move though the handler still
    waits. *)
Definition deadlocks (script : list Action) : Prop :=
  ∃ st, rtc step (spawn script) st ∧ stuck st ∧ ¬ completed st.

Definition never_completes (script : list Action) : Prop :=
  ∀ st, rtc step (spawn script) st → ¬ completed st.

Definition deadlock_free (script : list Action) : Prop :=
  ∀ st, rtc step (spawn script) st → completed st ∨ ∃ st', step st st'.

End PipeModel.

(** The handler is in its first [ReadAll], on standard output, which is
    empty; the child is inside a write of [n] bytes to standard error. *)
Definition blocked_on_stderr (n : N) (rest : list Action) (st : Sys) : Prop :=
  parent st = drain_then_wait
  ∧ in_stdout st = 0%N
  ∧ ∃ m, child st = Some (Write Stderr m :: rest)
         ∧ (0 < m)%N ∧ (in_stderr st + m = n)%N.

(** The state in which both are blocked: the pipe of standard error is
    full, the child has bytes left for it, the handler reads from the
    empty pipe of standard output. *)
Definition stderr_full (capacity n : N) (rest : list Action) : Sys :=
  {| child := Some (Write Stderr (n - capacity) :: rest);
     in_stdout := 0; in_stderr := capacity; parent := drain_then_wait |}.

(** ** The life cycle of the server (lines 226-238) *)

(** [time.Duration] counts nanoseconds. *)
Module time.
Definition Nanosecond : Z := 1.
Definition Microsecond : Z := 1000 * Nanosecond.
Definition Millisecond : Z := 1000 * Microsecond.
Definition Second : Z := 1000 * Millisecond.
End time.

(** What happens around the server once it listens; times in nanoseconds. *)
Record Signals : Type := {
  (** when the interrupt signal arrives, if ever *)
  interrupt_at : option Z;
  (** how long after it is called [Shutdown] finds the requests in flight
      done, if ever: it looks when it is called and then again at
      intervals that grow to half a second, so this is the first look after
      the last request is done *)
  idle_after : option Z;
  (** the error of closing the listeners *)
  close_listeners : error
}.

Inductive MainEvent : Type :=
| MInfo (msg : string)
| MShutdown (now deadline : Z)
| MFatal (msg : string).

Inductive Exit : Type :=
| Blocked
| ReturnNil
| OsExit (code : Z).

(** Modelled from the spec: [util.WaitForInterrupt], of the package
    [internal/util], whose source is not part of [main.go].  The spec: the
    main flow blocks waiting for the interrupt signal of the operating
    system; the result is the time at which it arrives, [None] when it never
    does. *)
Definition util_WaitForInterrupt (sg : Signals) : option Z := interrupt_at sg.

(** [context.WithTimeout(context.Background(), d)], called at [now]: the
    deadline of the context. *)
Definition context_WithTimeout (now d : Z) : Z := now + d.

(** The bound of line 231. *)
Definition shutdown_timeout : Z := 3 * time.Second.

(** [srv.Shutdown(ctx)] ([net/http]): closes the listeners, then looks for
    the connections to be idle until it finds them so or the context
    expires; when the context expires first it returns the error of the
    context, otherwise the error of closing the listeners. *)
Definition srv_Shutdown (sg : Signals) (now deadline : Z) : error :=
  match idle_after sg with
  | Some t => if now + t <=? deadline then close_listeners sg
              else Some "context deadline exceeded"
  | None => Some "context deadline exceeded"
  end.

(** Lines 229-238.  [logger.Fatal] logs and calls [os.Exit(1)]. *)
Definition serve_until_interrupt (sg : Signals) : Exit * list MainEvent :=
  match util_WaitForInterrupt sg with
  | None => (Blocked, [])
  | Some now =>
      let ctx := context_WithTimeout now shutdown_timeout in
      match srv_Shutdown sg now ctx with
      | Some err =>
          (OsExit 1,
           [MInfo "Shutting down the server"; MShutdown now ctx;
            MFatal ("Server forced to shutdown: " +:+ err)])
      | None =>
          (ReturnNil, [MInfo "Shutting down the server"; MShutdown now ctx])
      end
  end.

(** ** A catalog, requests and systems to run the handler on *)

Definition ctx_demo : Context :=
  {| Products := {[ "app" := {| Script := "/srv/deploy.sh" |};
                    "docs" := {| Script := "" |} ]} |}.

Definition upload (product : string) : Request :=
  {| Param_product := product;
     FormFile_artifact := Ok {| Filename := "build.zip"; Size := 1024 |} |}.

(** Two uploads without a usable [artifact] field. *)
Definition upload_no_file : Request :=
  {| Param_product := "app"; FormFile_artifact := Err "http: no such file" |}.

Definition upload_not_multipart : Request :=
  {| Param_product := "app";
     FormFile_artifact := Err "request Content-Type isn't multipart/form-data" |}.

(** Everything works and the script exits with status 0. *)
Definition os_demo : OS :=
  {| Environ := ["HOME=/root"]; TempDir_result := Ok "/tmp/bearpush-42";
     SaveUploadedFile_result := None; StdoutPipe_result := None;
     StderrPipe_result := None; Start_result := None;
     ReadAll_result := fun _ => Ok "done"; ExitStatus := 0;
     RemoveAll_result := None;
     LookPath_result := fun _ => ""; ExitSignal := "" |}.

Definition os_no_tempdir : OS :=
  {| Environ := Environ os_demo;
     TempDir_result := Err "mkdir /tmp/bearpush-42: no space left on device";
     SaveUploadedFile_result := None; StdoutPipe_result := None;
     StderrPipe_result := None; Start_result := None;
     ReadAll_result := ReadAll_result os_demo; ExitStatus := 0;
     RemoveAll_result := None;
     LookPath_result := fun _ => ""; ExitSignal := "" |}.

Definition os_not_saved : OS :=
  {| Environ := Environ os_demo; TempDir_result := TempDir_result os_demo;
     SaveUploadedFile_result :=
       Some "write /tmp/bearpush-42/artifact: no space left on device";
     StdoutPipe_result := None; StderrPipe_result := None; Start_result := None;
     ReadAll_result := ReadAll_result os_demo; ExitStatus := 0;
     RemoveAll_result := None;
     LookPath_result := fun _ => ""; ExitSignal := "" |}.

Definition os_no_stdout_pipe : OS :=
  {| Environ := Environ os_demo; TempDir_result := TempDir_result os_demo;
     SaveUploadedFile_result := None;
     StdoutPipe_result := Some "pipe2: too many open files";
     StderrPipe_result := None; Start_result := None;
     ReadAll_result := ReadAll_result os_demo; ExitStatus := 0;
     RemoveAll_result := None;
     LookPath_result := fun _ => ""; ExitSignal := "" |}.

Definition os_exit_3 : OS :=
  {| Environ := Environ os_demo; TempDir_result := TempDir_result os_demo;
     SaveUploadedFile_result := None; StdoutPipe_result := None;
     StderrPipe_result := None; Start_result := None;
     ReadAll_result := fun _ => Ok "deploy failed"; ExitStatus := 3;
     RemoveAll_result := None;
     LookPath_result := fun _ => ""; ExitSignal := "" |}.

Definition os_exit_1 : OS :=
  {| Environ := Environ os_demo; TempDir_result := TempDir_result os_demo;
     SaveUploadedFile_result := None; StdoutPipe_result := None;
     StderrPipe_result := None; Start_result := None;
     ReadAll_result := fun _ => Ok "rsync: permission denied"; ExitStatus := 1;
     RemoveAll_result := None;
     LookPath_result := fun _ => ""; ExitSignal := "" |}.

(** The script of the product cannot be executed. *)
Definition os_no_start : OS :=
  {| Environ := Environ os_demo; TempDir_result := TempDir_result os_demo;
     SaveUploadedFile_result := None; StdoutPipe_result := None;
     StderrPipe_result := None;
     Start_result := Some "fork/exec /srv/deploy.sh: permission denied";
     ReadAll_result := ReadAll_result os_demo; ExitStatus := 0;
     RemoveAll_result := None;
     LookPath_result := fun _ => ""; ExitSignal := "" |}.

(** The temporary directory cannot be removed. *)
Definition os_no_removal : OS :=
  set_RemoveAll (Some "unlinkat /tmp/bearpush-42: permission denied") os_demo.

(** [TMPDIR] is spelt with a dot and a doubled slash. *)
Definition os_unclean_tmpdir : OS :=
  {| Environ := ["HOME=/root"; "TMPDIR=/var/./tmp//"];
     TempDir_result := Ok "/var/./tmp//bearpush-42";
     SaveUploadedFile_result := None; StdoutPipe_result := None;
     StderrPipe_result := None; Start_result := None;
     ReadAll_result := ReadAll_result os_demo; ExitStatus := 0;
     RemoveAll_result := None;
     LookPath_result := fun _ => ""; ExitSignal := "" |}.

(** The server itself runs with [ARTIFACT_PATH] set. *)
Definition os_artifact_path_set : OS :=
  {| Environ := ["ARTIFACT_PATH=/srv/old.zip"; "HOME=/root"];
     TempDir_result := TempDir_result os_demo;
     SaveUploadedFile_result := None; StdoutPipe_result := None;
     StderrPipe_result := None; Start_result := None;
     ReadAll_result := ReadAll_result os_demo; ExitStatus := 0;
     RemoveAll_result := None;
     LookPath_result := fun _ => ""; ExitSignal := "" |}.

(** The product [tool] names its script without a slash; it is found on
    [PATH]. *)
Definition os_on_path : OS :=
  {| Environ := Environ os_demo; TempDir_result := TempDir_result os_demo;
     SaveUploadedFile_result := None; StdoutPipe_result := None;
     StderrPipe_result := None; Start_result := None;
     ReadAll_result := ReadAll_result os_demo; ExitStatus := 0;
     RemoveAll_result := None;
     LookPath_result := fun _ => "/usr/local/bin/deploy"; ExitSignal := "" |}.

(** The child is killed. *)
Definition os_killed : OS :=
  {| Environ := Environ os_demo; TempDir_result := TempDir_result os_demo;
     SaveUploadedFile_result := None; StdoutPipe_result := None;
     StderrPipe_result := None; Start_result := None;
     ReadAll_result := ReadAll_result os_demo; ExitStatus := -1;
     RemoveAll_result := None;
     LookPath_result := fun _ => ""; ExitSignal := "killed" |}.

(** The server runs with [TMPDIR=tmp]: [os.TempDir()] is ["tmp"], and
    [ioutil.TempDir("", "bearpush-")] creates its directory below it. *)
Definition os_relative_tmpdir : OS :=
  {| Environ := ["HOME=/root"; "TMPDIR=tmp"];
     TempDir_result := Ok "tmp/bearpush-42";
     SaveUploadedFile_result := None; StdoutPipe_result := None;
     StderrPipe_result := None; Start_result := None;
     ReadAll_result := ReadAll_result os_demo; ExitStatus := 0;
     RemoveAll_result := None;
     LookPath_result := fun _ => ""; ExitSignal := "" |}.

Definition relative_cmd : Cmd :=
  {| Path := "/srv/deploy.sh"; Args := ["/srv/deploy.sh"];
     Env := ["HOME=/root"; "TMPDIR=tmp"; "ARTIFACT_PATH=tmp/bearpush-42/artifact"];
     Stdin := None |}.

(** The command started for the product [app] on [os_demo]. *)
Definition demo_cmd : Cmd :=
  {| Path := "/srv/deploy.sh"; Args := ["/srv/deploy.sh"];
     Env := ["HOME=/root"; "ARTIFACT_PATH=/tmp/bearpush-42/artifact"];
     Stdin := None |}.

(** An interrupt one minute after the start, with a request in flight that
    needs five more seconds. *)
Definition slow_request : Signals :=
  {| interrupt_at := Some (60 * time.Second);
     idle_after := Some (5 * time.Second);
     close_listeners := None |}.

(** ** The command [product new] (lines 50-92)

    The action works on the disk and prints to standard output.  What is on
    the disk is state; what the system may refuse is again given as answers.
    Of [bearpush.LoadConfig], whose source is not part of [main.go], only
    the result is taken: the disk of a run is the disk as [LoadConfig] leaves
    it, and [stdout] holds the lines that the action itself prints. *)

(** An error of package [os], by what [os.IsExist] and [os.IsNotExist] say
    of it, with its text. *)
Inductive ErrKind : Type := KExist | KNotExist | KOther.

Record OsError : Type := { err_kind : ErrKind; err_text : string }.

(** [os.ErrExist] *)
Definition os_ErrExist : OsError :=
  {| err_kind := KExist; err_text := "file already exists" |}.

Definition os_IsExist (e : OsError) : bool :=
  match err_kind e with KExist => true | _ => false end.

Definition os_IsNotExist (e : OsError) : bool :=
  match err_kind e with KNotExist => true | _ => false end.

Record Disk : Type := {
  (** the regular files, with their content *)
  files : gmap string string;
  (** the directories *)
  dirs : gset string
}.

Record CliWorld : Type := {
  disk : Disk;
  (** what [fmt.Println] and [fmt.Printf] have written, oldest first *)
  stdout : list string
}.

(** [bearpush.LoadConfig] returns the configuration, of which the action
    reads [Path], or an error. *)
Inductive loaded : Type :=
| Loaded (Path : string)
| NotLoaded (err : OsError).

Record CliOS : Type := {
  (** [bearpush.LoadConfig(dir)], of package [bearpush] *)
  LoadConfig : string -> loaded;
  (** [os.MkdirAll(dir, 0740)] *)
  MkdirAll_result : option OsError;
  (** [os.Stat] failing for another reason than a missing file *)
  Stat_fault : option string;
  (** [os.Create(productPath)] *)
  Create_result : option OsError;
  (** [file.WriteString]: the bytes written before the error, and the error *)
  WriteString_result : option (nat * OsError)
}.

Definition print (s : string) (w : CliWorld) : CliWorld :=
  {| disk := disk w; stdout := stdout w ++ [s] |}.

Definition set_disk (d : Disk) (w : CliWorld) : CliWorld :=
  {| disk := d; stdout := stdout w |}.

Definition on_disk (path : string) (d : Disk) : bool :=
  bool_decide (is_Some (files d !! path)) || bool_decide (path ∈ dirs d).

(** A directory and its parents, for a cleaned path. *)
Fixpoint nonempty_prefixes {A : Type} (l : list A) : list (list A) :=
  match l with
  | [] => []
  | x :: l' => [x] :: map (cons x) (nonempty_prefixes l')
  end.

Definition with_parents (p : string) : list string :=
  let comps := List.filter (fun c => negb (String.eqb c "")) (split_slash "" p) in
  map (fun cs => if path_IsAbs p then "/" +:+ join_slash cs else join_slash cs)
      (nonempty_prefixes comps).

(** [filepath.Join] is [path.Join] where the separator is the slash. *)
Definition filepath_Join (a b : string) : string := path_Join a b.

(** [c.Args().First()]: the first argument, or the empty string. *)
Definition Args_First (args : list string) : string :=
  match args with
  | [] => ""
  | a :: _ => a
  end.

Section ProductNew.

(** [templates.GenerateProductFile], of the package [config/templates], whose
    source is not part of [main.go]: the text of a new product file. *)
Variable GenerateProductFile : string -> string.

Variable sys : CliOS.

(** [os.MkdirAll]: the directory and its parents exist afterwards. *)
Definition os_MkdirAll (dir : string) (w : CliWorld) : option OsError * CliWorld :=
  match MkdirAll_result sys with
  | Some e => (Some e, w)
  | None =>
      (None,
       set_disk {| files := files (disk w);
                   dirs := list_to_set (with_parents dir) ∪ dirs (disk w) |} w)
  end.

(** [os.Stat]: [nil] for what is on the disk, an error that
    [os.IsNotExist] recognises for what is not. *)
Definition os_Stat (path : string) (w : CliWorld) : option OsError :=
  match Stat_fault sys with
  | Some t => Some {| err_kind := KOther; err_text := t |}
  | None =>
      if on_disk path (disk w) then None
      else Some {| err_kind := KNotExist;
                   err_text := "stat " +:+ path +:+ ": no such file or directory" |}
  end.

(** [os.Create]: the file is created, or truncated. *)
Definition os_Create (path : string) (w : CliWorld) : option OsError * CliWorld :=
  match Create_result sys with
  | Some e => (Some e, w)
  | None =>
      (None,
       set_disk {| files := <[path := ""]> (files (disk w));
                   dirs := dirs (disk w) |} w)
  end.

(** [file.WriteString] on the file just created. *)
Definition file_WriteString (path s : string) (w : CliWorld)
  : option OsError * CliWorld :=
  match WriteString_result sys with
  | Some (n, e) =>
      (Some e,
       set_disk {| files := <[path := String.substring 0 n s]> (files (disk w));
                   dirs := dirs (disk w) |} w)
  | None =>
      (None,
       set_disk {| files := <[path := s]> (files (disk w));
                   dirs := dirs (disk w) |} w)
  end.

(** Lines 69-91: from the path of the product file to the end of the
    action.  The deferred [file.Close()] changes nothing that is modelled;
    on the [nil] file of a failed [os.Create] it returns an error, which is
    dropped. *)
Definition write_product_file (dir productName : string) (w : CliWorld)
  : option OsError * CliWorld :=
  let productPath := filepath_Join dir (productName +:+ ".yml") in
  let err := os_Stat productPath w in
  (* [err == nil || !os.IsNotExist(err)] *)
  if match err with None => true | Some e => negb (os_IsNotExist e) end then
    (Some os_ErrExist,
     print ("A product named " +:+ productName +:+ " already exists." +:+ nl) w)
  else
    let '(err, w) := os_Create productPath w in
    match err with
    | Some e =>
        (Some e, print ("Cannot open file " +:+ productPath +:+ " for writing" +:+ nl) w)
    | None =>
        let '(err, w) :=
          file_WriteString productPath (GenerateProductFile productName) w in
        match err with
        | Some e =>
            (Some e,
             print ("An error occurred while writing to file " +:+ productPath +:+ nl) w)
        | None =>
            (None,
             print ("It has been saved in " +:+ productPath +:+ "." +:+ nl)
               (print ("Configuration for new product " +:+ productName
                       +:+ " scaffolded successfully." +:+ nl) w))
        end
    end.

(** Lines 50-92: the action of [product new].  [config_dir] is the value of
    the flag [--config-dir], [args] are the arguments after [new]. *)
Definition product_new (config_dir : string) (args : list string) (w : CliWorld)
  : option OsError * CliWorld :=
  let productName := Args_First args in
  (* no [return] here: the action goes on with the empty name *)
  let w := if decide (productName = "")
           then print ("Product name not specified!" +:+ nl) w else w in
  match LoadConfig sys config_dir with
  | NotLoaded err => (Some err, print ("Cannot load config" +:+ nl) w)
  | Loaded config_Path =>
      let dir := filepath_Join config_Path "products" in
      let '(err, w) := os_MkdirAll dir w in
      (* [err != nil && !os.IsExist(err)] *)
      match err with
      | Some e =>
          if negb (os_IsExist e) then (Some e, w)
          else write_product_file dir productName w
      | None => write_product_file dir productName w
      end
  end.

End ProductNew.

(** The path of the product file for a configuration and a name. *)
Definition product_path (config_Path productName : string) : string :=
  filepath_Join (filepath_Join config_Path "products") (productName +:+ ".yml").

(** [os.MkdirAll] did not stop the action. *)
Definition mkdir_passes (sys : CliOS) : Prop :=
  match MkdirAll_result sys with
  | Some e => os_IsExist e = true
  | None => True
  end.

(** Nothing is at the path of the product file, and the path is none of the
    directories that [os.MkdirAll] makes. *)
Definition path_free (config_Path productName : string) (w : CliWorld) : Prop :=
  on_disk (product_path config_Path productName) (disk w) = false
  ∧ bool_decide (product_path config_Path productName
                   ∈ with_parents (filepath_Join config_Path "products")) = false.

(** The world after the check of the name on lines 52-55. *)
Definition name_checked (args : list string) (w : CliWorld) : CliWorld :=
  if decide (Args_First args = "")
  then print ("Product name not specified!" +:+ nl) w else w.

(** ** A template, systems and disks to run [product new] on *)

Definition template_demo (name : string) : string :=
  "name: " +:+ name +:+ nl +:+ "script: ''" +:+ nl.

(** Nothing is refused; the configuration lives in the directory asked for. *)
Definition cli_demo : CliOS :=
  {| LoadConfig := Loaded; MkdirAll_result := None; Stat_fault := None;
     Create_result := None; WriteString_result := None |}.

(** The disk is full after six bytes of the product file. *)
Definition cli_disk_full : CliOS :=
  {| LoadConfig := Loaded; MkdirAll_result := None; Stat_fault := None;
     Create_result := None;
     WriteString_result :=
       Some (6%nat, {| err_kind := KOther;
                       err_text := "write /etc/bearpush/products/app.yml: no space left on device" |}) |}.

(** [os.Stat] is refused. *)
Definition cli_stat_denied : CliOS :=
  {| LoadConfig := Loaded; MkdirAll_result := None;
     Stat_fault := Some "stat /etc/bearpush/products/app.yml: permission denied";
     Create_result := None; WriteString_result := None |}.

(** [os.MkdirAll] is refused. *)
Definition cli_mkdir_denied : CliOS :=
  {| LoadConfig := Loaded;
     MkdirAll_result :=
       Some {| err_kind := KOther;
               err_text := "mkdir /etc/bearpush: permission denied" |};
     Stat_fault := None; Create_result := None; WriteString_result := None |}.

Definition empty_disk : CliWorld :=
  {| disk := {| files := ∅; dirs := ∅ |}; stdout := [] |}.

(** The product [app] is configured already. *)
Definition disk_with_app : CliWorld :=
  {| disk := {| files := {[ "/etc/bearpush/products/app.yml" := "script: /srv/deploy.sh" ]};
                dirs := {[ "/etc/bearpush/products" ]} |};
     stdout := [] |}.

(** * Properties *)

(** ** The handler on concrete requests *)

Example run_processed :
  run ctx_demo os_demo (upload "app") ∅
  = (Returned tt,
     {| fs := ∅;
        trace := [EvTempDir (Ok "/tmp/bearpush-42");
                  EvSave "/tmp/bearpush-42/artifact" None;
                  EvStart demo_cmd None;
                  EvReadAll Stdout; EvReadAll Stderr; EvWait None;
                  EvRemoveAll "/tmp/bearpush-42" None];
        written := Some (resp_processed "app");
        started := true |}).
Proof. vm_compute. reflexivity. Qed.

Example run_exit_status_3 :
  served (run ctx_demo os_exit_3 (upload "app") ∅) = Some resp_pipeline_errored
  ∧ EvWait (Some "exit status 3") ∈ trace (run ctx_demo os_exit_3 (upload "app") ∅).2.
Proof. split; [reflexivity|]. vm_compute. do 5 right. left. Qed.

Example run_killed_child :
  served (run ctx_demo os_killed (upload "app") ∅) = Some resp_pipeline_errored
  ∧ EvWait (Some "signal: killed") ∈ trace (run ctx_demo os_killed (upload "app") ∅).2.
Proof. split; [reflexivity|]. vm_compute. do 5 right. left. Qed.

Example run_without_stdout_pipe :
  (run ctx_demo os_no_stdout_pipe (upload "app") ∅).1 = Panicked nil_dereference
  ∧ trace (run ctx_demo os_no_stdout_pipe (upload "app") ∅).2
    = [EvTempDir (Ok "/tmp/bearpush-42");
       EvSave "/tmp/bearpush-42/artifact" None;
       EvLog LError ("Cannot grab stdout pipe: pipe2: too many open files" +:+ nl);
       EvStart demo_cmd None;
       EvRemoveAll "/tmp/bearpush-42" None].
Proof. split; vm_compute; reflexivity. Qed.

(** The temporary directory is gone after a 200, a failed save, a failed
    pipeline and a panic. *)
Example tempdir_gone_on_four_paths :
  elements (fs (run ctx_demo os_demo (upload "app") ∅).2) = []
  ∧ elements (fs (run ctx_demo os_not_saved (upload "app") ∅).2) = []
  ∧ elements (fs (run ctx_demo os_exit_3 (upload "app") ∅).2) = []
  ∧ elements (fs (run ctx_demo os_no_stdout_pipe (upload "app") ∅).2) = [].
Proof. repeat split; vm_compute; reflexivity. Qed.

(** The artifact is saved under the cleaned name of the directory, and is
    removed with the directory. *)
Example unclean_tempdir_removed :
  EvSave "/var/tmp/bearpush-42/artifact" None
    ∈ trace (run ctx_demo os_unclean_tmpdir (upload "app") ∅).2
  ∧ elements (fs (run ctx_demo os_unclean_tmpdir (upload "app") ∅).2) = [].
Proof. split; [vm_compute; right; left|]. vm_compute. reflexivity. Qed.

(** ** [path.Join] *)

Example path_Join_tempdir :
  path_Join "/tmp/bearpush-123" "artifact" = "/tmp/bearpush-123/artifact".
Proof. reflexivity. Qed.

Example path_Clean_dotdot : path_Clean "abc/def/../../.." = "..".
Proof. reflexivity. Qed.

Example path_Clean_rooted : path_Clean "/../a/b/../../.." = "/".
Proof. reflexivity. Qed.

Lemma path_Clean_rooted_abs (p : string) :
  path_IsAbs p = true → path_IsAbs (path_Clean p) = true.
Proof.
  intros H. unfold path_Clean.
  destruct (decide (p = "")) as [->|_]; [discriminate H|].
  cbv zeta. rewrite H. reflexivity.
Qed.

(** Joining below a rooted directory gives a rooted path. *)
Lemma path_Join_abs (d name : string) :
  path_IsAbs d = true → path_IsAbs (path_Join d name) = true.
Proof.
  intros H. unfold path_Join.
  destruct (decide (d = "")) as [->|_]; [discriminate H|].
  destruct (decide (name = "")); apply path_Clean_rooted_abs; [done|].
  destruct d as [|ch d]; [discriminate H|]. exact H.
Qed.

(** The artifact lies under the temporary directory, however the system
    spells the name of that directory. *)
Lemma append_assoc (a b c : string) : (a +:+ b) +:+ c = a +:+ (b +:+ c).
Proof.
  induction a as [|ch a IH]; [done|].
  change (String ch ((a +:+ b) +:+ c) = String ch (a +:+ (b +:+ c))).
  by rewrite IH.
Qed.

Lemma starts_with_append (a b : string) : starts_with a (a +:+ b) = true.
Proof.
  induction a as [|ch a IH]; [done|].
  change (Ascii.eqb ch ch && starts_with a (a +:+ b) = true).
  by rewrite Ascii.eqb_refl, IH.
Qed.

Lemma split_slash_app (cur s t : string) :
  split_slash cur (s +:+ String "/" t) = split_slash cur s ++ split_slash "" t.
Proof.
  revert cur. induction s as [|ch s IH]; intros cur; [done|].
  change (split_slash cur (String ch (s +:+ String "/" t))
          = split_slash cur (String ch s) ++ split_slash "" t).
  cbn [split_slash]. destruct (Ascii.eqb ch "/"); by rewrite IH.
Qed.

Lemma join_slash_snoc l c :
  l ≠ [] → join_slash (l ++ [c]) = join_slash l +:+ "/" +:+ c.
Proof.
  destruct l as [|x l]; [done|]. intros _. unfold join_slash. simpl.
  by rewrite fold_left_app.
Qed.

Lemma kept_components_artifact d :
  d ≠ "" →
  kept_components (d +:+ "/artifact") = kept_components d ++ ["artifact"].
Proof.
  intros Hd. unfold kept_components.
  assert (path_IsAbs (d +:+ "/artifact") = path_IsAbs d) as ->
    by (by destruct d).
  change (d +:+ "/artifact") with (d +:+ String "/" "artifact").
  rewrite split_slash_app, fold_left_app.
  change (split_slash "" "artifact") with ["artifact"]. cbn [fold_left].
  assert (∀ r out, clean_step r out "artifact" = "artifact" :: out) as ->
    by (intros; by vm_compute).
  reflexivity.
Qed.

Lemma path_Clean_parts p :
  p ≠ "" →
  path_Clean p
  = if path_IsAbs p then "/" +:+ join_slash (kept_components p)
    else if decide (kept_components p = []) then "."
         else join_slash (kept_components p).
Proof.
  intros Hp. unfold path_Clean, kept_components.
  by destruct (decide (p = "")).
Qed.

Lemma under_self d : under d d = true.
Proof. unfold under. by rewrite String.eqb_refl. Qed.

Lemma under_artifact d : under d (path_Join d "artifact") = true.
Proof.
  destruct (decide (d = "")) as [->|Hd]; [by vm_compute|].
  unfold path_Join. destruct (decide (d = "")); [done|].
  destruct (decide ("artifact" = "")); [done|].
  change (d +:+ "/" +:+ "artifact") with (d +:+ "/artifact").
  assert (Hne : d +:+ "/artifact" ≠ "") by (by destruct d).
  rewrite (path_Clean_parts _ Hne), (kept_components_artifact _ Hd).
  assert (path_IsAbs (d +:+ "/artifact") = path_IsAbs d) as ->
    by (by destruct d).
  unfold under. apply orb_true_iff. right.
  destruct (kept_components d) as [|k ks] eqn:Hk.
  - destruct (path_IsAbs d); by vm_compute.
  - rewrite join_slash_snoc by done.
    destruct (decide ((k :: ks) ++ ["artifact"] = [])); [done|].
    apply orb_true_iff. right.
    destruct (path_IsAbs d).
    + rewrite <- !append_assoc. apply starts_with_append.
    + change ("" +:+ join_slash (k :: ks)) with (join_slash (k :: ks)).
      rewrite <- append_assoc. apply starts_with_append.
Qed.

(** ** The script block *)

Ltac unfold_script :=
  unfold run_script, script_cmd, cmd_StdoutPipe, cmd_StderrPipe, cmd_Start,
    io_ReadAll, cmd_Wait, if_err, logger_Errorf, c_JSON, emit, panic,
    mbind, mret, M_bind, M_ret.

Ltac script_cases os p w :=
  let so := fresh "so" in let se := fresh "se" in let st := fresh "st" in
  let ra := fresh "ra" in let ex := fresh "ex" in let ws := fresh "ws" in
  destruct os as [? ? ? so se st ra ex ? ? ?];
  destruct w as [? ? ? ws];
  unfold_script;
  cbn [Environ StdoutPipe_result StderrPipe_result Start_result
       ReadAll_result ExitStatus started] in *;
  destruct (decide (Script p ≠ ""));
  [ destruct ws, so, se, st;
    destruct (ra Stdout), (ra Stderr);
    destruct (Z.eqb_spec ex 0), (ex <? 0); simpl in *
  | simpl in * ].

Section Script.

Variables (os : OS) (p : Product) (a : string) (w : World).

Lemma run_script_skip :
  Script p = "" → run_script os p a w = (Returned false, w).
Proof.
  intros H. unfold run_script. destruct (decide (Script p ≠ "")); [tauto|done].
Qed.

(** The script block does not touch the files of the handler. *)
Lemma run_script_fs : fs (run_script os p a w).2 = fs w.
Proof. script_cases os p w; reflexivity. Qed.

(** It only logs errors, starts the one command, reads and waits. *)
Lemma run_script_trace :
  ∃ l, trace (run_script os p a w).2 = trace w ++ l
       ∧ Forall (script_event os p (script_cmd os p a)) l.
Proof.
  script_cases os p w;
    [rewrite <- ?app_assoc; eexists; (split; [reflexivity|]);
     repeat (apply Forall_cons; split; [by repeat split|]);
     apply Forall_nil_2 .. | ].
  exists []. by rewrite app_nil_r.
Qed.

(** What it leaves in the [gin.Context], by the way it ends. *)
Lemma run_script_written :
  match (run_script os p a w).1 with
  | Returned true => written (run_script os p a w).2 = Some resp_pipeline_errored
  | _ => written (run_script os p a w).2 = written w
  end.
Proof. script_cases os p w; reflexivity. Qed.

(** With both pipes, and no child yet, the block ends by the error of
    [cmd.Wait]: it has returned when the start failed or the exit status is
    not 0. *)
Lemma run_script_waits :
  started w = false → Script p ≠ "" →
  StdoutPipe_result os = None → StderrPipe_result os = None →
  (run_script os p a w).1 =
    Returned (bool_decide (Start_result os ≠ None ∨ ExitStatus os ≠ 0)).
Proof.
  intros Hw Hp Hso Hse.
  destruct os as [? ? ? so se st ra ex ? ? ?], w as [? ? ? ws];
    cbn [StdoutPipe_result StderrPipe_result Start_result ExitStatus started]
      in *; subst.
  unfold_script; cbn [StdoutPipe_result StderrPipe_result Start_result
                      ReadAll_result ExitStatus started Environ].
  destruct (decide (Script p ≠ "")); [|tauto].
  destruct st, (ra Stdout), (ra Stderr), (Z.eqb_spec ex 0), (ex <? 0); simpl.
  all: first
    [ reflexivity
    | rewrite bool_decide_eq_true_2; [reflexivity|];
      first [left; congruence | right; assumption]
    | rewrite bool_decide_eq_false_2; [reflexivity|];
      intros [?|?]; congruence ].
Qed.

(** A command that cannot be started: [Start] has closed the pipes, both
    reads fail, [cmd.Wait] reports that the command was not started; every
    error is logged. *)
Lemma run_script_start_failed e :
  started w = false → Script p ≠ "" →
  StdoutPipe_result os = None → StderrPipe_result os = None →
  Start_result os = Some e →
  trace (run_script os p a w).2 =
    trace w ++
    [EvStart (script_cmd os p a) (Some e);
     EvLog LError ("Cannot start: " +:+ e +:+ nl);
     EvReadAll Stdout;
     EvLog LError ("Cannot read stdout: read |0: file already closed" +:+ nl);
     EvReadAll Stderr;
     EvLog LError ("Cannot read stderr: read |0: file already closed" +:+ nl);
     EvWait (Some "exec: not started");
     EvLog LError ("Command failed: exec: not started" +:+ nl)].
Proof.
  intros Hw Hp Hso Hse Hst.
  destruct os as [? ? ? so se st ra ex ? ? ?], w as [? ? ? ws];
    cbn [StdoutPipe_result StderrPipe_result Start_result started] in *; subst.
  unfold_script; cbn [StdoutPipe_result StderrPipe_result Start_result
                      ReadAll_result ExitStatus started Environ].
  destruct (decide (Script p ≠ "")); [|tauto].
  simpl. by rewrite <- !app_assoc.
Qed.

(** With a launched child the blocking calls are, in this order,
    [ReadAll] on standard output, [ReadAll] on standard error, [Wait]. *)
Lemma run_script_blocking_calls :
  Script p ≠ "" →
  StdoutPipe_result os = None → StderrPipe_result os = None →
  Start_result os = None →
  blocking_calls (run_script os p a w).2 = blocking_calls w ++ drain_then_wait.
Proof.
  intros Hp Hso Hse Hst. unfold blocking_calls.
  destruct os as [? ? ? so se st ra ex ? ? ?], w as [? ? ? ws];
    cbn [StdoutPipe_result StderrPipe_result Start_result] in *; subst.
  unfold_script; cbn [StdoutPipe_result StderrPipe_result Start_result
                      ReadAll_result ExitStatus started Environ].
  destruct (decide (Script p ≠ "")); [|tauto].
  destruct (ra Stdout), (ra Stderr), (Z.eqb_spec ex 0), (ex <? 0); simpl;
    rewrite !omap_app; simpl; by rewrite <- ?app_assoc, ?app_nil_r.
Qed.

(** Without one of the pipes it panics: [cmd.Wait] is not reached. *)
Lemma run_script_nil_pipe :
  Script p ≠ "" →
  StdoutPipe_result os ≠ None ∨ StderrPipe_result os ≠ None →
  (run_script os p a w).1 = Panicked nil_dereference.
Proof.
  intros Hp Hpipe.
  script_cases os p w; try tauto; try reflexivity.
Qed.

End Script.

(** ** The deferred cleanup *)

Lemma TryRemoveDir_trace os d w :
  trace (util_TryRemoveDir os d w).2 = trace w ++ cleanup_events os d.
Proof.
  unfold util_TryRemoveDir, cleanup_events.
  destruct (RemoveAll_result os); simpl; by rewrite <- ?app_assoc.
Qed.

Lemma TryRemoveDir_written os d w :
  written (util_TryRemoveDir os d w).2 = written w.
Proof. unfold util_TryRemoveDir. by destruct (RemoveAll_result os). Qed.

Lemma TryRemoveDir_returns os d w :
  (util_TryRemoveDir os d w).1 = Returned tt.
Proof. unfold util_TryRemoveDir. by destruct (RemoveAll_result os). Qed.

Lemma TryRemoveDir_fs os d w :
  fs (util_TryRemoveDir os d w).2 =
    match RemoveAll_result os with
    | None => remove_all d (fs w)
    | Some _ => fs w
    end.
Proof. unfold util_TryRemoveDir. by destruct (RemoveAll_result os). Qed.

Lemma remove_all_gone d f p : under d p = true → p ∉ remove_all d f.
Proof.
  intros Hu Hin. unfold remove_all in Hin.
  apply elem_of_filter in Hin as [Hp _]. congruence.
Qed.

(** [defer]: the world is the one the deferred call leaves; the outcome is
    the one of the body when the deferred call returns. *)
Lemma defer_world {A} (g : M unit) (body : M A) w :
  (defer g body w).2 = (g (body w).2).2.
Proof.
  unfold defer. destruct (body w) as [o w']. simpl.
  by destruct (g w') as [[|] w''].
Qed.

Lemma defer_outcome {A} (g : M unit) (body : M A) w :
  (g (body w).2).1 = Returned tt → (defer g body w).1 = (body w).1.
Proof.
  unfold defer. destruct (body w) as [o w']. simpl.
  destruct (g w') as [[|] w'']; simpl; congruence.
Qed.

(** ** The paths through the handler *)

Section Paths.

Variables (ctx : Context) (os : OS) (c : Request) (f : gset string).

Lemma run_unknown :
  Products ctx !! Param_product c = None →
  run ctx os c f = (Returned tt, set_written resp_unknown_product (init_world f)).
Proof. intros H. unfold run, upload_handler, c_Param_product. by rewrite H. Qed.

Lemma run_bad_upload p e :
  Products ctx !! Param_product c = Some p →
  FormFile_artifact c = Err e →
  run ctx os c f =
    (Returned tt,
     set_written (resp_bad_upload e) (log_event (EvLog LWarn e) (init_world f))).
Proof.
  intros H1 H2.
  unfold run, upload_handler, c_Param_product, c_FormFile_artifact.
  by rewrite H1, H2.
Qed.

Lemma run_no_tempdir p file e :
  Products ctx !! Param_product c = Some p →
  FormFile_artifact c = Ok file →
  TempDir_result os = Err e →
  run ctx os c f =
    (Returned tt,
     set_written resp_no_tempdir
       (log_event (EvLog LError e)
          (log_event (EvTempDir (Err e)) (init_world f)))).
Proof.
  intros H1 H2 H3.
  unfold run, upload_handler, c_Param_product, c_FormFile_artifact.
  rewrite H1, H2. unfold mbind, M_bind, ioutil_TempDir. by rewrite H3.
Qed.

Lemma run_not_saved p file d e :
  Products ctx !! Param_product c = Some p →
  FormFile_artifact c = Ok file →
  TempDir_result os = Ok d →
  SaveUploadedFile_result os = Some e →
  run ctx os c f =
    defer (util_TryRemoveDir os d)
      (fun w => (Returned tt,
         set_written resp_not_saved
           (log_event (EvLog LError ("Cannot save artifact: %s" +:+ e))
              (log_event (EvSave (path_Join d "artifact") (Some e)) w))))
      (set_fs ({[d]} ∪ f) (log_event (EvTempDir (Ok d)) (init_world f))).
Proof.
  intros H1 H2 H3 H4.
  unfold run, upload_handler, c_Param_product, c_FormFile_artifact.
  rewrite H1, H2. unfold mbind at 1, M_bind at 1, ioutil_TempDir. rewrite H3.
  unfold defer, mbind, M_bind, c_SaveUploadedFile. by rewrite H4.
Qed.

Lemma run_staged p file d :
  Products ctx !! Param_product c = Some p →
  FormFile_artifact c = Ok file →
  TempDir_result os = Ok d →
  SaveUploadedFile_result os = None →
  run ctx os c f =
    defer (util_TryRemoveDir os d) (after_staging os c p d) (staged_world f d).
Proof.
  intros H1 H2 H3 H4.
  unfold run, upload_handler, c_Param_product, c_FormFile_artifact.
  rewrite H1, H2. unfold mbind at 1, M_bind at 1, ioutil_TempDir. rewrite H3.
  unfold defer, mbind at 1, M_bind at 1, c_SaveUploadedFile. by rewrite H4.
Qed.

End Paths.

(** ** The staged path: lines 173-214 under the deferred cleanup *)

Section Staged.

Variables (os : OS) (c : Request) (p : Product) (d : string) (w : World).

Lemma after_staging_cases :
  written w = None →
  match (run_script os p (path_Join d "artifact") w).1 with
  | Returned true =>
      (after_staging os c p d w).1 = Returned tt
      ∧ written (after_staging os c p d w).2 = Some resp_pipeline_errored
  | Returned false =>
      (after_staging os c p d w).1 = Returned tt
      ∧ written (after_staging os c p d w).2
        = Some (resp_processed (Param_product c))
  | Panicked m =>
      (after_staging os c p d w).1 = Panicked m
      ∧ written (after_staging os c p d w).2 = None
  end.
Proof.
  intros Hw. pose proof (run_script_written os p (path_Join d "artifact") w) as H.
  unfold after_staging, mbind, M_bind, c_String, mret, M_ret.
  destruct (run_script os p (path_Join d "artifact") w) as [[[|]|m] w'];
    simpl in *; split; first [reflexivity | congruence].
Qed.

Lemma after_staging_fs :
  fs (after_staging os c p d w).2 = fs w.
Proof.
  pose proof (run_script_fs os p (path_Join d "artifact") w) as H.
  unfold after_staging, mbind, M_bind, c_String, mret, M_ret.
  by destruct (run_script os p (path_Join d "artifact") w) as [[[|]|m] w'].
Qed.

Lemma after_staging_trace :
  ∃ l, trace (after_staging os c p d w).2 = trace w ++ l
       ∧ Forall (script_event os p (script_cmd os p (path_Join d "artifact"))) l.
Proof.
  destruct (run_script_trace os p (path_Join d "artifact") w) as (l & Hl & Hall).
  exists l. split; [|done].
  unfold after_staging, mbind, M_bind, c_String, mret, M_ret.
  by destruct (run_script os p (path_Join d "artifact") w) as [[[|]|m] w'].
Qed.

Lemma after_staging_trace_eq :
  trace (after_staging os c p d w).2
  = trace (run_script os p (path_Join d "artifact") w).2.
Proof.
  unfold after_staging, mbind, M_bind, c_String, mret, M_ret.
  by destruct (run_script os p (path_Join d "artifact") w) as [[[|]|m] w'].
Qed.

End Staged.

(** What the caller receives on the staged path. *)
Lemma served_staged ctx os c f p file d :
  Products ctx !! Param_product c = Some p →
  FormFile_artifact c = Ok file →
  TempDir_result os = Ok d →
  SaveUploadedFile_result os = None →
  served (run ctx os c f) =
    match (run_script os p (path_Join d "artifact") (staged_world f d)).1 with
    | Returned true => Some resp_pipeline_errored
    | Returned false => Some (resp_processed (Param_product c))
    | Panicked _ => Some resp_recovered
    end.
Proof.
  intros H1 H2 H3 H4. rewrite (run_staged _ _ _ _ _ _ _ H1 H2 H3 H4).
  unfold served.
  rewrite defer_outcome by apply TryRemoveDir_returns.
  rewrite defer_world, TryRemoveDir_written.
  pose proof (after_staging_cases os c p d (staged_world f d) eq_refl) as H.
  destruct (run_script os p (path_Join d "artifact") (staged_world f d)).1
    as [[|]|m]; destruct H as [-> ->]; reflexivity.
Qed.

(** What the caller receives, on every path. *)
Lemma served_run ctx os c f :
  served (run ctx os c f) = Some (response_of ctx os c).
Proof.
  unfold response_of.
  destruct (Products ctx !! Param_product c) as [p|] eqn:H1.
  2: { by rewrite run_unknown. }
  destruct (FormFile_artifact c) as [file|e] eqn:H2.
  2: { by rewrite (run_bad_upload _ _ _ _ _ _ H1 H2). }
  destruct (TempDir_result os) as [d|e] eqn:H3.
  2: { by rewrite (run_no_tempdir _ _ _ _ _ _ _ H1 H2 H3). }
  destruct (SaveUploadedFile_result os) as [e|] eqn:H4.
  { rewrite (run_not_saved _ _ _ _ _ _ _ _ H1 H2 H3 H4).
    unfold served. rewrite defer_outcome by apply TryRemoveDir_returns.
    by rewrite defer_world, TryRemoveDir_written. }
  rewrite (served_staged _ _ _ _ _ _ _ H1 H2 H3 H4).
  destruct (decide (Script p = "")) as [Hs|Hs].
  { by rewrite run_script_skip. }
  destruct (StdoutPipe_result os) as [e1|] eqn:H5.
  { rewrite run_script_nil_pipe; [done..|]. left. by rewrite H5. }
  destruct (StderrPipe_result os) as [e2|] eqn:H6.
  { rewrite run_script_nil_pipe; [done..|]. right. by rewrite H6. }
  rewrite run_script_waits by done.
  by destruct (bool_decide _).
Qed.

(** The trace of a request, path by path. *)
Lemma run_trace ctx os c f :
  match Products ctx !! Param_product c, FormFile_artifact c,
        TempDir_result os, SaveUploadedFile_result os with
  | None, _, _, _ => trace (run ctx os c f).2 = []
  | Some _, Err e, _, _ => trace (run ctx os c f).2 = [EvLog LWarn e]
  | Some _, Ok _, Err e, _ =>
      trace (run ctx os c f).2 = [EvTempDir (Err e); EvLog LError e]
  | Some _, Ok _, Ok d, Some e =>
      trace (run ctx os c f).2 =
        [EvTempDir (Ok d); EvSave (path_Join d "artifact") (Some e);
         EvLog LError ("Cannot save artifact: %s" +:+ e)]
        ++ cleanup_events os d
  | Some p, Ok _, Ok d, None =>
      ∃ l, trace (run ctx os c f).2 =
             [EvTempDir (Ok d); EvSave (path_Join d "artifact") None]
             ++ l ++ cleanup_events os d
           ∧ Forall (script_event os p (script_cmd os p (path_Join d "artifact"))) l
  end.
Proof.
  destruct (Products ctx !! Param_product c) as [p|] eqn:H1.
  2: { by rewrite run_unknown. }
  destruct (FormFile_artifact c) as [file|e] eqn:H2.
  2: { by rewrite (run_bad_upload _ _ _ _ _ _ H1 H2). }
  destruct (TempDir_result os) as [d|e] eqn:H3.
  2: { by rewrite (run_no_tempdir _ _ _ _ _ _ _ H1 H2 H3). }
  destruct (SaveUploadedFile_result os) as [e|] eqn:H4.
  { rewrite (run_not_saved _ _ _ _ _ _ _ _ H1 H2 H3 H4).
    by rewrite defer_world, TryRemoveDir_trace. }
  rewrite (run_staged _ _ _ _ _ _ _ H1 H2 H3 H4).
  rewrite defer_world, TryRemoveDir_trace.
  destruct (after_staging_trace os c p d (staged_world f d)) as (l & -> & Hall).
  exists l. split; [|done]. by rewrite <- app_assoc.
Qed.


(** ** What the handler answers, starts and removes *)

Lemma TryRemoveDir_started os d w :
  started (util_TryRemoveDir os d w).2 = started w.
Proof. unfold util_TryRemoveDir. by destruct (RemoveAll_result os). Qed.

(** On the staged path the outcome is the one of lines 173-214. *)
Lemma run_staged_outcome ctx os c f p file d :
  Products ctx !! Param_product c = Some p →
  FormFile_artifact c = Ok file →
  TempDir_result os = Ok d →
  SaveUploadedFile_result os = None →
  (run ctx os c f).1 = (after_staging os c p d (staged_world f d)).1.
Proof.
  intros H1 H2 H3 H4. rewrite (run_staged _ _ _ _ _ _ _ H1 H2 H3 H4).
  apply defer_outcome, TryRemoveDir_returns.
Qed.

(** Script events are no staging events, and the cleanup starts no child. *)
Lemma script_event_not_TempDir os p cmd l r :
  Forall (script_event os p cmd) l → EvTempDir r ∉ l.
Proof.
  intros Hall Hin. rewrite Forall_forall in Hall. by destruct (Hall _ Hin).
Qed.

Lemma script_event_not_Save os p cmd l dst e :
  Forall (script_event os p cmd) l → EvSave dst e ∉ l.
Proof.
  intros Hall Hin. rewrite Forall_forall in Hall. by destruct (Hall _ Hin).
Qed.

Lemma script_event_Start os p cmd l cmd' e :
  Forall (script_event os p cmd) l → EvStart cmd' e ∈ l →
  Script p ≠ "" ∧ cmd' = cmd ∧ e = Start_result os.
Proof.
  intros Hall Hin. rewrite Forall_forall in Hall. exact (Hall _ Hin).
Qed.

Lemma script_event_Wait os p cmd l e :
  Forall (script_event os p cmd) l → EvWait e ∈ l →
  StdoutPipe_result os = None ∧ StderrPipe_result os = None.
Proof.
  intros Hall Hin. rewrite Forall_forall in Hall. by destruct (Hall _ Hin).
Qed.

Lemma cleanup_events_inv os d e :
  e ∈ cleanup_events os d →
  e = EvRemoveAll d (RemoveAll_result os) ∨ ∃ msg, e = EvLog LWarn msg.
Proof.
  unfold cleanup_events. intros Hin.
  destruct (RemoveAll_result os) as [msg|];
    repeat (apply elem_of_cons in Hin as [->|Hin]); eauto;
    by apply elem_of_nil in Hin.
Qed.

(** An event of the script block in the trace tells the path the request
    took: known product, file present, directory created, file saved. *)
Lemma script_events_inv ctx os c f e :
  of_script e = true → e ∈ trace (run ctx os c f).2 →
  ∃ p file d,
    Products ctx !! Param_product c = Some p
    ∧ FormFile_artifact c = Ok file
    ∧ TempDir_result os = Ok d
    ∧ SaveUploadedFile_result os = None
    ∧ script_event os p (script_cmd os p (path_Join d "artifact")) e.
Proof.
  intros He Hin. pose proof (run_trace ctx os c f) as Ht.
  destruct (Products ctx !! Param_product c) as [p|] eqn:H1.
  2: { rewrite Ht in Hin. by apply elem_of_nil in Hin. }
  destruct (FormFile_artifact c) as [file|e0] eqn:H2.
  2: { rewrite Ht in Hin. apply list_elem_of_singleton in Hin. by subst. }
  destruct (TempDir_result os) as [d|e0] eqn:H3.
  2: { rewrite Ht in Hin.
       repeat (apply elem_of_cons in Hin as [->|Hin]; [discriminate He|]).
       by apply elem_of_nil in Hin. }
  destruct (SaveUploadedFile_result os) as [e0|] eqn:H4.
  { rewrite Ht in Hin. apply elem_of_app in Hin as [Hin|Hin].
    - repeat (apply elem_of_cons in Hin as [->|Hin]; [discriminate He|]).
      by apply elem_of_nil in Hin.
    - apply cleanup_events_inv in Hin as [->|[? ->]]; discriminate He. }
  destruct Ht as (l & Ht & Hall). rewrite Ht in Hin.
  apply elem_of_cons in Hin as [->|Hin]; [discriminate He|].
  apply elem_of_cons in Hin as [->|Hin]; [discriminate He|].
  apply elem_of_app in Hin as [Hin|Hin].
  2: { apply cleanup_events_inv in Hin as [->|[? ->]]; discriminate He. }
  exists p, file, d. repeat split; try done.
  all: rewrite Forall_forall in Hall; by destruct (Hall _ Hin).
Qed.

(** C5: a request for a product that is not in the catalog is answered 400
    with the error code 4, "Resource does not exist."; the handler does
    nothing else, so no child process is started; and the handler gives the
    code 4 to no other request. *)
Theorem C5_unknown_product ctx os c f :
  Products ctx !! Param_product c = None →
  (run ctx os c f).1 = Returned tt
  ∧ served (run ctx os c f) = Some resp_unknown_product
  ∧ status resp_unknown_product = http.StatusBadRequest
  ∧ error_code (Some resp_unknown_product) = Some (JInt 4)
  ∧ trace (run ctx os c f).2 = []
  ∧ no_child (run ctx os c f).2
  ∧ fs (run ctx os c f).2 = f
  ∧ (∀ os' c' f',
       error_code (served (run ctx os' c' f')) = Some (JInt 4) →
       Products ctx !! Param_product c' = None).
Proof.
  intros H. rewrite run_unknown by done.
  repeat split.
  intros os' c' f'. rewrite served_run. unfold response_of.
  destruct (Products ctx !! Param_product c') as [p|]; [|done].
  destruct (FormFile_artifact c'); [|done].
  destruct (TempDir_result os'), (SaveUploadedFile_result os'); try done.
  destruct (decide (Script p = "")); [done|].
  destruct (StdoutPipe_result os'), (StderrPipe_result os'); try done.
  by destruct (bool_decide _).
Qed.

Lemma C5_unknown_product_witness :
  Products ctx_demo !! "nope" = None
  ∧ served (run ctx_demo os_demo (upload "nope") ∅) = Some resp_unknown_product.
Proof.
  split; [reflexivity|].
  apply (C5_unknown_product ctx_demo os_demo (upload "nope") ∅). reflexivity.
Defined.

(** C10: when the temporary directory cannot be created, or the uploaded
    file cannot be saved, the handler answers 500 and returns before the
    script block: [cmd.Start] is never called. *)
Theorem C10_staging_failure_is_500 ctx os c f :
  (∃ e, EvTempDir (Err e) ∈ trace (run ctx os c f).2)
  ∨ (∃ dst e, EvSave dst (Some e) ∈ trace (run ctx os c f).2) →
  (run ctx os c f).1 = Returned tt
  ∧ status_of (served (run ctx os c f)) = Some http.StatusInternalServerError
  ∧ no_child (run ctx os c f).2.
Proof.
  intros Hfail. pose proof (run_trace ctx os c f) as Ht.
  rewrite served_run. unfold response_of.
  destruct (Products ctx !! Param_product c) as [p|] eqn:H1.
  2: { rewrite Ht in Hfail. destruct Hfail as [[e He]|(dst & e & He)];
       by apply elem_of_nil in He. }
  destruct (FormFile_artifact c) as [file|e0] eqn:H2.
  2: { rewrite Ht in Hfail. destruct Hfail as [[e He]|(dst & e & He)];
       apply list_elem_of_singleton in He; discriminate. }
  destruct (TempDir_result os) as [d|e0] eqn:H3.
  2: { by rewrite (run_no_tempdir _ _ _ _ _ _ _ H1 H2 H3). }
  destruct (SaveUploadedFile_result os) as [e0|] eqn:H4.
  { rewrite (run_not_saved _ _ _ _ _ _ _ _ H1 H2 H3 H4).
    rewrite defer_outcome by apply TryRemoveDir_returns.
    rewrite defer_world. unfold no_child.
    rewrite TryRemoveDir_trace, TryRemoveDir_started. simpl.
    unfold cleanup_events. by destruct (RemoveAll_result os). }
  exfalso. destruct Ht as (l & Ht & Hall). rewrite Ht in Hfail.
  destruct Hfail as [[e He]|(dst & e & He)].
  - apply elem_of_cons in He as [?|He]; [discriminate|].
    apply elem_of_cons in He as [?|He]; [discriminate|].
    apply elem_of_app in He as [He|He].
    + by eapply script_event_not_TempDir.
    + apply cleanup_events_inv in He as [?|[? ?]]; discriminate.
  - apply elem_of_cons in He as [?|He]; [discriminate|].
    apply elem_of_cons in He as [?|He]; [discriminate|].
    apply elem_of_app in He as [He|He].
    + by eapply script_event_not_Save.
    + apply cleanup_events_inv in He as [?|[? ?]]; discriminate.
Qed.

Lemma C10_staging_failure_is_500_witness :
  status_of (served (run ctx_demo os_no_tempdir (upload "app") ∅))
  = Some http.StatusInternalServerError
  ∧ no_child (run ctx_demo os_no_tempdir (upload "app") ∅).2.
Proof.
  apply (C10_staging_failure_is_500 ctx_demo os_no_tempdir (upload "app") ∅).
  left. exists "mkdir /tmp/bearpush-42: no space left on device".
  vm_compute. left.
Defined.

(** C6: for a product without a script, once the artifact is staged, the
    handler starts no child and answers 200, whatever else the system
    answers. *)
Theorem C6_empty_script_succeeds ctx os c f p file d :
  Products ctx !! Param_product c = Some p →
  Script p = "" →
  FormFile_artifact c = Ok file →
  TempDir_result os = Ok d →
  SaveUploadedFile_result os = None →
  (run ctx os c f).1 = Returned tt
  ∧ served (run ctx os c f) = Some (resp_processed (Param_product c))
  ∧ status (resp_processed (Param_product c)) = http.StatusOK
  ∧ no_child (run ctx os c f).2.
Proof.
  intros H1 Hs H2 H3 H4. split; [|split; [|split; [done|]]].
  - rewrite (run_staged_outcome _ _ _ _ _ _ _ H1 H2 H3 H4).
    unfold after_staging, mbind, M_bind. by rewrite run_script_skip.
  - rewrite served_run. unfold response_of. rewrite H1, H2, H3, H4.
    by destruct (decide (Script p = "")).
  - rewrite (run_staged _ _ _ _ _ _ _ H1 H2 H3 H4), defer_world.
    unfold no_child. rewrite TryRemoveDir_trace, TryRemoveDir_started.
    unfold after_staging, mbind, M_bind. rewrite run_script_skip by done.
    simpl. unfold cleanup_events. by destruct (RemoveAll_result os).
Qed.

Lemma C6_empty_script_succeeds_witness :
  served (run ctx_demo os_demo (upload "docs") ∅) = Some (resp_processed "docs")
  ∧ no_child (run ctx_demo os_demo (upload "docs") ∅).2.
Proof.
  pose proof (C6_empty_script_succeeds ctx_demo os_demo (upload "docs") ∅
                {| Script := "" |} {| Filename := "build.zip"; Size := 1024 |}
                "/tmp/bearpush-42" eq_refl eq_refl eq_refl eq_refl eq_refl)
    as (_ & Hserved & _ & Hchild).
  exact (conj Hserved Hchild).
Defined.

(** A launched child (both pipes, [cmd.Start] without error): the exit
    status decides between the 200 and the 422. *)
Lemma launched_exit_status ctx os c f p file d :
  Products ctx !! Param_product c = Some p →
  FormFile_artifact c = Ok file →
  TempDir_result os = Ok d →
  SaveUploadedFile_result os = None →
  Script p ≠ "" →
  StdoutPipe_result os = None →
  StderrPipe_result os = None →
  Start_result os = None →
  (run ctx os c f).1 = Returned tt
  ∧ served (run ctx os c f) =
      Some (if bool_decide (ExitStatus os ≠ 0) then resp_pipeline_errored
            else resp_processed (Param_product c)).
Proof.
  intros H1 H2 H3 H4 Hs H5 H6 H7. split.
  - rewrite (run_staged_outcome _ _ _ _ _ _ _ H1 H2 H3 H4).
    pose proof (after_staging_cases os c p d (staged_world f d) eq_refl) as H.
    rewrite run_script_waits in H by done.
    destruct (bool_decide _); tauto.
  - rewrite served_run. unfold response_of. rewrite H1, H2, H3, H4, H5, H6, H7.
    destruct (decide (Script p = "")); [done|].
    destruct (decide (ExitStatus os = 0)) as [E|E].
    + rewrite !bool_decide_eq_false_2; [done| |]; intuition.
    + rewrite !bool_decide_eq_true_2; [done| |]; intuition.
Qed.

(** The code 8 goes with the status 422 only; the other responses of the
    handler carry the code 4 or none. *)
Lemma other_error_codes ctx os c f :
  status_of (served (run ctx os c f)) ≠ Some http.StatusUnprocessableEntity →
  error_code (served (run ctx os c f)) = None
  ∨ error_code (served (run ctx os c f)) = Some (JInt 4).
Proof.
  rewrite served_run. unfold response_of.
  destruct (Products ctx !! Param_product c) as [p|]; [|by right].
  destruct (FormFile_artifact c); [|by left].
  destruct (TempDir_result os), (SaveUploadedFile_result os); try by left.
  destruct (decide (Script p = "")); [by left|].
  destruct (StdoutPipe_result os), (StderrPipe_result os); try by left.
  destruct (bool_decide _); [|by left]. intros H. by destruct H.
Qed.

(** C3, where the handler departs from it.  For a known product with a
    script, a staged artifact and a child that was started: with both pipes
    obtained, exit status 0 is answered 200 with a message naming the
    product and any other exit status 422 with the error code 8; but when
    [cmd.StdoutPipe] or [cmd.StderrPipe] had failed, the handler panics
    before it waits for the child, and the caller gets the 500 of the
    recovery middleware whatever the exit status: a child that exits with
    status 0 is then not answered 200.  No response of the handler with
    another status than 422 carries the code 8 (the other code in use
    is 4). *)
Theorem C3_exit_status_decides_response ctx os c f p file d :
  Products ctx !! Param_product c = Some p →
  FormFile_artifact c = Ok file →
  TempDir_result os = Ok d →
  SaveUploadedFile_result os = None →
  Script p ≠ "" →
  Start_result os = None →
  (StdoutPipe_result os = None → StderrPipe_result os = None →
     (ExitStatus os = 0 →
        (run ctx os c f).1 = Returned tt
        ∧ status_of (served (run ctx os c f)) = Some http.StatusOK
        ∧ text_of (served (run ctx os c f))
          = Some ("Artifact for product " +:+ Param_product c
                  +:+ " processed successfully."))
     ∧ (ExitStatus os ≠ 0 →
        (run ctx os c f).1 = Returned tt
        ∧ status_of (served (run ctx os c f)) = Some http.StatusUnprocessableEntity
        ∧ error_code (served (run ctx os c f)) = Some (JInt 8)))
  ∧ (StdoutPipe_result os ≠ None ∨ StderrPipe_result os ≠ None →
     (run ctx os c f).1 = Panicked nil_dereference
     ∧ (∀ werr, EvWait werr ∉ trace (run ctx os c f).2)
     ∧ served (run ctx os c f) = Some resp_recovered
     ∧ status_of (served (run ctx os c f)) = Some http.StatusInternalServerError)
  ∧ (∀ ctx' os' c' f',
       status_of (served (run ctx' os' c' f')) ≠ Some http.StatusUnprocessableEntity →
       error_code (served (run ctx' os' c' f')) = None
       ∨ error_code (served (run ctx' os' c' f')) = Some (JInt 4)).
Proof.
  intros H1 H2 H3 H4 Hs H7. split; [|split].
  - intros H5 H6.
    destruct (launched_exit_status ctx os c f p file d) as [Hout Hresp]; try done.
    split.
    + intros E. rewrite Hresp, bool_decide_eq_false_2 by (intros ?; done). done.
    + intros E. rewrite Hresp, bool_decide_eq_true_2 by done. done.
  - intros Hpipe.
    assert (Hresp : served (run ctx os c f) = Some resp_recovered).
    { rewrite served_run. unfold response_of. rewrite H1, H2, H3, H4.
      destruct (decide (Script p = "")); [done|].
      destruct (StdoutPipe_result os), (StderrPipe_result os); try done.
      by destruct Hpipe. }
    split; [|split; [|by rewrite Hresp]].
    { rewrite (run_staged_outcome _ _ _ _ _ _ _ H1 H2 H3 H4).
      pose proof (after_staging_cases os c p d (staged_world f d) eq_refl) as H.
      rewrite run_script_nil_pipe in H by done. tauto. }
    intros werr Hin.
    apply script_events_inv in Hin as (? & ? & ? & _ & _ & _ & _ & _ & H5 & H6);
      [|done].
    destruct Hpipe; congruence.
  - apply other_error_codes.
Qed.

Lemma C3_exit_status_decides_response_witness :
  ExitStatus os_no_stdout_pipe = 0
  ∧ EvStart demo_cmd None
      ∈ trace (run ctx_demo os_no_stdout_pipe (upload "app") ∅).2
  ∧ served (run ctx_demo os_no_stdout_pipe (upload "app") ∅) = Some resp_recovered
  ∧ status_of (served (run ctx_demo os_demo (upload "app") ∅)) = Some http.StatusOK
  ∧ text_of (served (run ctx_demo os_demo (upload "app") ∅))
    = Some "Artifact for product app processed successfully."
  ∧ status_of (served (run ctx_demo os_exit_3 (upload "app") ∅))
    = Some http.StatusUnprocessableEntity
  ∧ error_code (served (run ctx_demo os_exit_3 (upload "app") ∅)) = Some (JInt 8).
Proof.
  assert (Hs : Script {| Script := "/srv/deploy.sh" |} ≠ "") by discriminate.
  assert (Hpipe : StdoutPipe_result os_no_stdout_pipe ≠ None
                  ∨ StderrPipe_result os_no_stdout_pipe ≠ None)
    by (left; discriminate).
  assert (Hne : ExitStatus os_exit_3 ≠ 0) by discriminate.
  assert (Hin : EvStart demo_cmd None
                  ∈ trace (run ctx_demo os_no_stdout_pipe (upload "app") ∅).2)
    by (vm_compute; do 3 right; left).
  pose proof (C3_exit_status_decides_response ctx_demo os_no_stdout_pipe
                (upload "app") ∅ {| Script := "/srv/deploy.sh" |}
                {| Filename := "build.zip"; Size := 1024 |} "/tmp/bearpush-42"
                eq_refl eq_refl eq_refl eq_refl Hs eq_refl) as (_ & Hbad & _).
  pose proof (C3_exit_status_decides_response ctx_demo os_demo
                (upload "app") ∅ {| Script := "/srv/deploy.sh" |}
                {| Filename := "build.zip"; Size := 1024 |} "/tmp/bearpush-42"
                eq_refl eq_refl eq_refl eq_refl Hs eq_refl) as (Hzero & _ & _).
  pose proof (C3_exit_status_decides_response ctx_demo os_exit_3
                (upload "app") ∅ {| Script := "/srv/deploy.sh" |}
                {| Filename := "build.zip"; Size := 1024 |} "/tmp/bearpush-42"
                eq_refl eq_refl eq_refl eq_refl Hs eq_refl) as (Hnonzero & _ & _).
  destruct (Hbad Hpipe) as (_ & _ & Hc & _).
  destruct (Hzero eq_refl eq_refl) as [Hz _].
  destruct (Hnonzero eq_refl eq_refl) as [_ Hnz].
  destruct (Hz eq_refl) as (_ & Ha & Hb).
  destruct (Hnz Hne) as (_ & Hd & He).
  exact (conj eq_refl (conj Hin (conj Hc (conj Ha (conj Hb (conj Hd He)))))).
Defined.

(** The part of C4 that the handler does: a child that cannot be started,
    with both pipes obtained, ends in the response of a failed pipeline,
    without a panic; the text of the error goes to the log. *)
Lemma start_failure_is_pipeline_failure ctx os c f p file d e :
  Products ctx !! Param_product c = Some p →
  FormFile_artifact c = Ok file →
  TempDir_result os = Ok d →
  SaveUploadedFile_result os = None →
  Script p ≠ "" →
  StdoutPipe_result os = None →
  StderrPipe_result os = None →
  Start_result os = Some e →
  (run ctx os c f).1 = Returned tt
  ∧ served (run ctx os c f) = Some resp_pipeline_errored
  ∧ EvLog LError ("Cannot start: " +:+ e +:+ nl) ∈ trace (run ctx os c f).2
  ∧ EvLog LError ("Command failed: exec: not started" +:+ nl)
      ∈ trace (run ctx os c f).2.
Proof.
  intros H1 H2 H3 H4 Hs H5 H6 H7. split; [|split].
  - rewrite (run_staged_outcome _ _ _ _ _ _ _ H1 H2 H3 H4).
    pose proof (after_staging_cases os c p d (staged_world f d) eq_refl) as H.
    rewrite run_script_waits in H by done.
    destruct (bool_decide _); tauto.
  - rewrite served_run. unfold response_of. rewrite H1, H2, H3, H4, H5, H6, H7.
    destruct (decide (Script p = "")); [done|].
    rewrite bool_decide_eq_true_2; [done|]. by left.
  - rewrite (run_staged _ _ _ _ _ _ _ H1 H2 H3 H4), defer_world.
    rewrite TryRemoveDir_trace, after_staging_trace_eq.
    rewrite (run_script_start_failed _ _ _ _ e) by done.
    split; apply elem_of_app; left; apply elem_of_app; right.
    + do 1 right. left.
    + do 7 right. left.
Qed.

(** Without one of the pipes the handler panics. *)
Lemma run_nil_pipe ctx os c f p file d :
  Products ctx !! Param_product c = Some p →
  FormFile_artifact c = Ok file →
  TempDir_result os = Ok d →
  SaveUploadedFile_result os = None →
  Script p ≠ "" →
  StdoutPipe_result os ≠ None ∨ StderrPipe_result os ≠ None →
  (run ctx os c f).1 = Panicked nil_dereference.
Proof.
  intros H1 H2 H3 H4 Hs Hpipe.
  rewrite (run_staged_outcome _ _ _ _ _ _ _ H1 H2 H3 H4).
  pose proof (after_staging_cases os c p d (staged_world f d) eq_refl) as H.
  rewrite run_script_nil_pipe in H by done. tauto.
Qed.

(** C4, where the handler departs from it: when [cmd.StdoutPipe] or
    [cmd.StderrPipe] fails, the handler logs the error and goes on with a
    nil pipe; [io.ReadAll] on it panics.  The request is not answered as a
    failed pipeline (422, code 8): the recovery middleware answers 500
    without a body. *)
Theorem C4_nil_pipe_panics ctx os c f p file d :
  Products ctx !! Param_product c = Some p →
  FormFile_artifact c = Ok file →
  TempDir_result os = Ok d →
  SaveUploadedFile_result os = None →
  Script p ≠ "" →
  StdoutPipe_result os ≠ None ∨ StderrPipe_result os ≠ None →
  (run ctx os c f).1 = Panicked nil_dereference
  ∧ served (run ctx os c f) = Some resp_recovered
  ∧ served (run ctx os c f) ≠ Some resp_pipeline_errored.
Proof.
  intros H1 H2 H3 H4 Hs Hpipe.
  assert (Hresp : served (run ctx os c f) = Some resp_recovered).
  { rewrite served_run. unfold response_of. rewrite H1, H2, H3, H4.
    destruct (decide (Script p = "")); [done|].
    destruct Hpipe as [Hp|Hp];
      destruct (StdoutPipe_result os), (StderrPipe_result os); done. }
  split; [|split; [done|]].
  - by eapply run_nil_pipe.
  - rewrite Hresp. discriminate.
Qed.

Lemma C4_nil_pipe_panics_witness :
  (run ctx_demo os_no_stdout_pipe (upload "app") ∅).1 = Panicked nil_dereference
  ∧ served (run ctx_demo os_no_stdout_pipe (upload "app") ∅) = Some resp_recovered.
Proof.
  assert (Hpipe : StdoutPipe_result os_no_stdout_pipe ≠ None
                  ∨ StderrPipe_result os_no_stdout_pipe ≠ None)
    by (left; discriminate).
  pose proof (C4_nil_pipe_panics ctx_demo os_no_stdout_pipe (upload "app") ∅
                {| Script := "/srv/deploy.sh" |}
                {| Filename := "build.zip"; Size := 1024 |} "/tmp/bearpush-42"
                eq_refl eq_refl eq_refl eq_refl ltac:(discriminate) Hpipe)
    as (Ha & Hb & _).
  exact (conj Ha Hb).
Defined.

(** C7 as it is stated fails: the handler passes the path it built from the
    directory of [ioutil.TempDir] and never makes it absolute; with a
    relative [TMPDIR] the child gets a relative [ARTIFACT_PATH]. *)
Lemma C7_relative_tmpdir_relative_path : ¬ artifact_path_is_absolute.
Proof.
  intros H.
  assert (Hin : EvStart relative_cmd None
                  ∈ trace (run ctx_demo os_relative_tmpdir (upload "app") ∅).2)
    by (vm_compute; do 2 right; left).
  destruct (H _ _ _ _ _ _ Hin) as (path & Henv & Habs).
  vm_compute in Henv. injection Henv as <-. discriminate Habs.
Qed.

(** *** What [os/exec] makes of the environment *)

Lemma env_key_ARTIFACT_PATH path :
  env_key ("ARTIFACT_PATH=" +:+ path) = Some "ARTIFACT_PATH".
Proof. reflexivity. Qed.

(** A key already met hides every entry of that key. *)
Lemma dedup_from_end_saw a saw l :
  dedup_from_end ({[a]} ∪ saw) l
  = List.filter (fun kv => negb (has_key a kv)) (dedup_from_end saw l).
Proof.
  revert saw. induction l as [|kv l IH]; intros saw; [done|].
  cbn [dedup_from_end]. destruct (env_key kv) as [k|] eqn:Hk.
  - destruct (decide (k = a)) as [->|Hne].
    + rewrite decide_True
        by (apply elem_of_union; left; by apply elem_of_singleton).
      destruct (decide (a ∈ saw)) as [Hin|Hout]; [apply IH|].
      cbn [List.filter]. unfold has_key at 1.
      rewrite Hk, bool_decide_eq_true_2 by done. cbn [negb].
      rewrite <- IH. f_equal.
      apply set_eq. intros x. rewrite !elem_of_union. tauto.
    + destruct (decide (k ∈ saw)) as [Hin|Hout].
      * rewrite decide_True by (apply elem_of_union; by right). apply IH.
      * rewrite decide_False
          by (rewrite elem_of_union, elem_of_singleton; tauto).
        cbn [List.filter]. unfold has_key at 1.
        rewrite Hk, bool_decide_eq_false_2 by congruence. cbn [negb].
        f_equal. rewrite <- IH. f_equal.
        apply set_eq. intros x. rewrite !elem_of_union. tauto.
  - destruct (decide (kv = "")); [apply IH|].
    cbn [List.filter]. unfold has_key at 1.
    rewrite Hk, bool_decide_eq_false_2 by done. cbn [negb].
    f_equal. apply IH.
Qed.

(** An entry put at the end of the list replaces the entries of its key. *)
Lemma dedupEnv_snoc env kv k :
  env_key kv = Some k →
  dedupEnv (env ++ [kv])
  = List.filter (fun e => negb (has_key k e)) (dedupEnv env) ++ [kv].
Proof.
  intros Hk. unfold dedupEnv. rewrite rev_unit. cbn [dedup_from_end].
  rewrite Hk, decide_False by apply not_elem_of_empty.
  rewrite dedup_from_end_saw. cbn [rev]. by rewrite List.filter_rev.
Qed.

Example inherited_ARTIFACT_PATH_replaced :
  Env (script_cmd os_artifact_path_set {| Script := "/srv/deploy.sh" |}
         "/tmp/bearpush-42/artifact")
  = ["ARTIFACT_PATH=/srv/old.zip"; "HOME=/root";
     "ARTIFACT_PATH=/tmp/bearpush-42/artifact"]
  ∧ cmd_environ (script_cmd os_artifact_path_set {| Script := "/srv/deploy.sh" |}
                   "/tmp/bearpush-42/artifact")
    = ["HOME=/root"; "ARTIFACT_PATH=/tmp/bearpush-42/artifact"].
Proof. split; by vm_compute. Qed.

(** A name without a slash is looked up on [PATH]; a name with a slash is
    taken as it is. *)
Example exec_Command_Path :
  Path (exec_Command os_on_path "deploy") = "/usr/local/bin/deploy"
  ∧ Path (exec_Command os_demo "deploy") = "deploy"
  ∧ Path (exec_Command os_on_path "/srv/deploy.sh") = "/srv/deploy.sh"
  ∧ Path (exec_Command os_on_path "./deploy") = "./deploy".
Proof. repeat split; by vm_compute. Qed.

(** C7, amended: every command the handler starts is given the environment
    of the server followed by the one entry [ARTIFACT_PATH=...], whose value
    is the path the artifact was saved to, [path.Join(tempDir, "artifact")].
    [os/exec] keeps the last entry of a key, so the child is started with
    the environment of the server, without any [ARTIFACT_PATH] it had,
    followed by that entry.  The path is absolute when the temporary
    directory of the system is, and the command has no standard input. *)
Theorem C7_child_environment ctx os c f cmd err :
  EvStart cmd err ∈ trace (run ctx os c f).2 →
  ∃ p d,
    Products ctx !! Param_product c = Some p
    ∧ TempDir_result os = Ok d
    ∧ EvSave (path_Join d "artifact") None ∈ trace (run ctx os c f).2
    ∧ Env cmd = Environ os ++ ["ARTIFACT_PATH=" +:+ path_Join d "artifact"]
    ∧ cmd_environ cmd
      = List.filter (fun kv => negb (has_key "ARTIFACT_PATH" kv))
          (dedupEnv (Environ os))
        ++ ["ARTIFACT_PATH=" +:+ path_Join d "artifact"]
    ∧ Stdin cmd = None
    ∧ (path_IsAbs d = true → path_IsAbs (path_Join d "artifact") = true).
Proof.
  intros Hin. pose proof (run_trace ctx os c f) as Ht.
  destruct (Products ctx !! Param_product c) as [p|] eqn:H1.
  2: { rewrite Ht in Hin. by apply elem_of_nil in Hin. }
  destruct (FormFile_artifact c) as [file|e0] eqn:H2.
  2: { rewrite Ht in Hin. apply list_elem_of_singleton in Hin. discriminate. }
  destruct (TempDir_result os) as [d|e0] eqn:H3.
  2: { rewrite Ht in Hin.
       repeat (apply elem_of_cons in Hin as [?|Hin]; [discriminate|]).
       by apply elem_of_nil in Hin. }
  destruct (SaveUploadedFile_result os) as [e0|] eqn:H4.
  { rewrite Ht in Hin. apply elem_of_app in Hin as [Hin|Hin].
    - repeat (apply elem_of_cons in Hin as [?|Hin]; [discriminate|]).
      by apply elem_of_nil in Hin.
    - apply cleanup_events_inv in Hin as [?|[? ?]]; discriminate. }
  destruct Ht as (l & Ht & Hall). rewrite Ht in Hin |- *.
  apply elem_of_cons in Hin as [?|Hin]; [discriminate|].
  apply elem_of_cons in Hin as [?|Hin]; [discriminate|].
  apply elem_of_app in Hin as [Hin|Hin].
  2: { apply cleanup_events_inv in Hin as [?|[? ?]]; discriminate. }
  pose proof (script_event_Start _ _ _ _ _ _ Hall Hin) as (_ & Hcmd & _).
  subst cmd.
  exists p, d. split; [done|]. split; [done|]. split.
  { apply elem_of_cons. right. apply elem_of_cons. by left. }
  split; [done|]. split.
  { unfold cmd_environ, script_cmd, set_Env. cbn [Env].
    apply dedupEnv_snoc, env_key_ARTIFACT_PATH. }
  split; [done|]. apply path_Join_abs.
Qed.

Lemma C7_child_environment_witness :
  EvStart demo_cmd None ∈ trace (run ctx_demo os_demo (upload "app") ∅).2
  ∧ Env demo_cmd
    = Environ os_demo ++ ["ARTIFACT_PATH=" +:+ path_Join "/tmp/bearpush-42" "artifact"]
  ∧ cmd_environ demo_cmd = ["HOME=/root"; "ARTIFACT_PATH=/tmp/bearpush-42/artifact"]
  ∧ Stdin demo_cmd = None
  ∧ path_IsAbs (path_Join "/tmp/bearpush-42" "artifact") = true.
Proof.
  assert (Hin : EvStart demo_cmd None
                  ∈ trace (run ctx_demo os_demo (upload "app") ∅).2)
    by (vm_compute; do 2 right; left).
  destruct (C7_child_environment ctx_demo os_demo (upload "app") ∅ demo_cmd None Hin)
    as (p & d & _ & Hd & _ & Henv & Hchild & Hstdin & Habs).
  injection Hd as <-.
  exact (conj Hin (conj Henv (conj Hchild (conj Hstdin (Habs eq_refl))))).
Defined.

(** C1 as it is stated fails: the removal is an attempt.  When
    [os.RemoveAll] fails, the request completes, answered 200, with the
    temporary directory still on the disk. *)
Lemma C1_failed_removal_leaves_tempdir : ¬ tempdir_always_removed.
Proof.
  intros H.
  apply (H ctx_demo os_no_removal (upload "app") ∅ "/tmp/bearpush-42").
  - vm_compute. left.
  - rewrite (run_staged ctx_demo os_no_removal (upload "app") ∅
               {| Script := "/srv/deploy.sh" |}
               {| Filename := "build.zip"; Size := 1024 |} "/tmp/bearpush-42"
               eq_refl eq_refl eq_refl eq_refl).
    rewrite defer_world, TryRemoveDir_fs, after_staging_fs.
    change (RemoveAll_result os_no_removal)
      with (Some "unlinkat /tmp/bearpush-42: permission denied").
    cbn [staged_world log_event set_fs fs].
    apply elem_of_union. right. apply elem_of_union. left.
    by apply elem_of_singleton.
Qed.

(** C1, amended: when the temporary directory has been created, the
    deferred [util.TryRemoveDir] is the last thing every run does, whether
    the handler answers 200, fails to save the file, answers for a failed
    pipeline or panics.  When the system carries the removal out, the
    directory, the artifact and all else below it are gone when the request
    completes; when it does not, the directory stays, the failure is
    logged, and the response is the one the request gets when the removal
    works. *)
Theorem C1_tempdir_removed_on_every_exit ctx os c f d :
  EvTempDir (Ok d) ∈ trace (run ctx os c f).2 →
  (∃ before, trace (run ctx os c f).2 = before ++ cleanup_events os d)
  ∧ EvRemoveAll d (RemoveAll_result os) ∈ trace (run ctx os c f).2
  ∧ (RemoveAll_result os = None →
     (d ∉ fs (run ctx os c f).2)
     ∧ (path_Join d "artifact" ∉ fs (run ctx os c f).2)
     ∧ ∀ path, under d path = true → (path ∉ fs (run ctx os c f).2))
  ∧ (∀ e, RemoveAll_result os = Some e →
     d ∈ fs (run ctx os c f).2
     ∧ EvLog LWarn e ∈ trace (run ctx os c f).2
     ∧ served (run ctx os c f) = served (run ctx (set_RemoveAll None os) c f)).
Proof.
  intros Hin. pose proof (run_trace ctx os c f) as Ht.
  assert (Hclean : EvRemoveAll d (RemoveAll_result os) ∈ cleanup_events os d).
  { unfold cleanup_events. destruct (RemoveAll_result os); by left. }
  assert (Hwarn : ∀ e, RemoveAll_result os = Some e →
                       EvLog LWarn e ∈ cleanup_events os d).
  { intros e He. unfold cleanup_events. rewrite He. right. left. }
  assert (Hsame : served (run ctx os c f)
                  = served (run ctx (set_RemoveAll None os) c f)).
  { by rewrite !served_run. }
  destruct (Products ctx !! Param_product c) as [p|] eqn:H1.
  2: { rewrite Ht in Hin. by apply elem_of_nil in Hin. }
  destruct (FormFile_artifact c) as [file|e0] eqn:H2.
  2: { rewrite Ht in Hin. apply list_elem_of_singleton in Hin. discriminate. }
  destruct (TempDir_result os) as [d'|e0] eqn:H3.
  2: { rewrite Ht in Hin.
       repeat (apply elem_of_cons in Hin as [?|Hin]; [discriminate|]).
       by apply elem_of_nil in Hin. }
  assert (d' = d) as ->.
  { destruct (SaveUploadedFile_result os) as [e0|] eqn:H4.
    - rewrite Ht in Hin. apply elem_of_app in Hin as [Hin|Hin].
      + apply elem_of_cons in Hin as [?|Hin]; [congruence|].
        repeat (apply elem_of_cons in Hin as [?|Hin]; [discriminate|]).
        by apply elem_of_nil in Hin.
      + apply cleanup_events_inv in Hin as [?|[? ?]]; discriminate.
    - destruct Ht as (l & Ht & Hall). rewrite Ht in Hin.
      apply elem_of_cons in Hin as [?|Hin]; [congruence|].
      apply elem_of_cons in Hin as [?|Hin]; [discriminate|].
      apply elem_of_app in Hin as [Hin|Hin].
      + by apply (script_event_not_TempDir _ _ _ _ _ Hall) in Hin.
      + apply cleanup_events_inv in Hin as [?|[? ?]]; discriminate. }
  destruct (SaveUploadedFile_result os) as [e0|] eqn:H4.
  - assert (Hfs : fs (run ctx os c f).2
                  = match RemoveAll_result os with
                    | None => remove_all d ({[d]} ∪ f)
                    | Some _ => {[d]} ∪ f
                    end).
    { rewrite (run_not_saved _ _ _ _ _ _ _ _ H1 H2 H3 H4), defer_world.
      by rewrite TryRemoveDir_fs. }
    split; [|split; [|split]].
    + rewrite Ht. eauto.
    + rewrite Ht. apply elem_of_app. by right.
    + intros Hrm. rewrite Hfs, Hrm.
      split; [apply remove_all_gone, under_self|].
      split; [apply remove_all_gone, under_artifact|].
      intros path Hunder. by apply remove_all_gone.
    + intros e He. rewrite Hfs, He.
      split; [apply elem_of_union; left; by apply elem_of_singleton|].
      split; [|done].
      rewrite Ht. apply elem_of_app. right. by apply Hwarn.
  - assert (Hfs : fs (run ctx os c f).2
                  = match RemoveAll_result os with
                    | None => remove_all d ({[path_Join d "artifact"]} ∪ ({[d]} ∪ f))
                    | Some _ => {[path_Join d "artifact"]} ∪ ({[d]} ∪ f)
                    end).
    { rewrite (run_staged _ _ _ _ _ _ _ H1 H2 H3 H4), defer_world.
      by rewrite TryRemoveDir_fs, after_staging_fs. }
    destruct Ht as (l & Ht & Hall). split; [|split; [|split]].
    + rewrite Ht. exists ([EvTempDir (Ok d); EvSave (path_Join d "artifact") None] ++ l).
      by rewrite <- app_assoc.
    + rewrite Ht. apply elem_of_app. right. apply elem_of_app. by right.
    + intros Hrm. rewrite Hfs, Hrm.
      split; [apply remove_all_gone, under_self|].
      split; [apply remove_all_gone, under_artifact|].
      intros path Hunder. by apply remove_all_gone.
    + intros e He. rewrite Hfs, He.
      split; [apply elem_of_union; right; apply elem_of_union; left;
              by apply elem_of_singleton|].
      split; [|done].
      rewrite Ht. apply elem_of_app. right. apply elem_of_app. right.
      by apply Hwarn.
Qed.

Lemma C1_tempdir_removed_on_every_exit_witness :
  ("/tmp/bearpush-42" ∉ fs (run ctx_demo os_exit_3 (upload "app") ∅).2)
  ∧ ("/tmp/bearpush-42/artifact" ∉ fs (run ctx_demo os_exit_3 (upload "app") ∅).2)
  ∧ "/tmp/bearpush-42" ∈ fs (run ctx_demo os_no_removal (upload "app") ∅).2
  ∧ served (run ctx_demo os_no_removal (upload "app") ∅)
    = served (run ctx_demo os_demo (upload "app") ∅).
Proof.
  assert (Hin : EvTempDir (Ok "/tmp/bearpush-42")
                  ∈ trace (run ctx_demo os_exit_3 (upload "app") ∅).2)
    by (vm_compute; left).
  assert (Hin' : EvTempDir (Ok "/tmp/bearpush-42")
                   ∈ trace (run ctx_demo os_no_removal (upload "app") ∅).2)
    by (vm_compute; left).
  pose proof (C1_tempdir_removed_on_every_exit ctx_demo os_exit_3 (upload "app") ∅
                "/tmp/bearpush-42" Hin) as (_ & _ & Hgone & _).
  pose proof (C1_tempdir_removed_on_every_exit ctx_demo os_no_removal (upload "app") ∅
                "/tmp/bearpush-42" Hin') as (_ & _ & _ & Hstays).
  destruct (Hgone eq_refl) as (Ha & Hb & _).
  destruct (Hstays "unlinkat /tmp/bearpush-42: permission denied" eq_refl)
    as (Hc & _ & Hd).
  exact (conj Ha (conj Hb (conj Hc Hd))).
Defined.

(** ** Diagnostic detail and the response *)

Lemma same_error_cases (e1 e2 : error) :
  same_error e1 e2 → (e1 = None ∧ e2 = None) ∨ (e1 ≠ None ∧ e2 ≠ None).
Proof. unfold same_error. destruct e1, e2; intros [? ?]; intuition congruence. Qed.

(** Past [c.FormFile], the response does not depend on the detail. *)
Lemma response_of_details ctx os1 os2 c1 c2 file :
  same_but_details os1 os2 c1 c2 →
  FormFile_artifact c1 = Ok file →
  response_of ctx os1 c1 = response_of ctx os2 c2.
Proof.
  intros [Hp Hff _ Htd Hsv Hso Hse Hst _ Hex _] Hfile.
  unfold response_of. rewrite <- Hp.
  destruct (Products ctx !! Param_product c1) as [p|]; [|done].
  rewrite Hfile in Hff |- *.
  destruct (FormFile_artifact c2); [|done].
  destruct (TempDir_result os1), (TempDir_result os2); try done.
  apply same_error_cases in Hsv as [[-> ->]|[? ?]].
  2: { by destruct (SaveUploadedFile_result os1), (SaveUploadedFile_result os2). }
  destruct (decide (Script p = "")); [done|].
  apply same_error_cases in Hso as [[-> ->]|[? ?]].
  2: { by destruct (StdoutPipe_result os1), (StdoutPipe_result os2). }
  apply same_error_cases in Hse as [[-> ->]|[? ?]].
  2: { by destruct (StderrPipe_result os1), (StderrPipe_result os2). }
  rewrite (bool_decide_ext (Start_result os1 ≠ None ∨ ExitStatus os1 ≠ 0)
                           (Start_result os2 ≠ None ∨ ExitStatus os2 ≠ 0));
    [done|].
  unfold same_error in Hst. tauto.
Qed.

(** C9 as it is stated fails: the answer to an upload without a usable
    [artifact] field carries the text of the error of [c.FormFile]. *)
Lemma C9_upload_error_text_reaches_caller : ¬ failure_body_is_generic.
Proof.
  intros H.
  specialize (H ctx_demo os_demo os_demo upload_no_file upload_not_multipart ∅).
  assert (Hsame : same_but_details os_demo os_demo upload_no_file upload_not_multipart).
  { by split. }
  assert (Hfail : ends_in_failure ctx_demo os_demo upload_no_file ∅).
  { split; [by eexists|]. vm_compute. discriminate. }
  specialize (H Hsame Hfail). vm_compute in H. discriminate H.
Qed.

(** C9, amended: once the upload carries the file, a failure to create the
    temporary directory, to save the file, or of the pipeline is answered
    the same way whatever the error texts, the output of the script and its
    non-zero exit status are; when the handler returns, the answer is one of
    three fixed responses. *)
Theorem C9_failure_response_is_generic ctx os1 os2 c1 c2 f file :
  same_but_details os1 os2 c1 c2 →
  ends_in_failure ctx os1 c1 f →
  FormFile_artifact c1 = Ok file →
  served (run ctx os1 c1 f) = served (run ctx os2 c2 f)
  ∧ ((run ctx os1 c1 f).1 = Returned tt →
     served (run ctx os1 c1 f) = Some resp_no_tempdir
     ∨ served (run ctx os1 c1 f) = Some resp_not_saved
     ∨ served (run ctx os1 c1 f) = Some resp_pipeline_errored).
Proof.
  intros Hsame [[p H1] Hstatus] H2. split.
  { rewrite !served_run. f_equal. by eapply response_of_details. }
  intros Hret. revert Hstatus. rewrite served_run. unfold response_of.
  rewrite H1, H2.
  destruct (TempDir_result os1) as [d|] eqn:H3; [|by auto].
  destruct (SaveUploadedFile_result os1) eqn:H4; [by auto|].
  destruct (decide (Script p = "")); [done|].
  destruct (StdoutPipe_result os1) eqn:H5.
  { rewrite (run_nil_pipe _ _ _ _ _ _ _ H1 H2 H3 H4) in Hret; [done..|].
    left. by rewrite H5. }
  destruct (StderrPipe_result os1) eqn:H6.
  { rewrite (run_nil_pipe _ _ _ _ _ _ _ H1 H2 H3 H4) in Hret; [done..|].
    right. by rewrite H6. }
  destruct (bool_decide _); [by auto|done].
Qed.

Lemma C9_failure_response_is_generic_witness :
  served (run ctx_demo os_exit_3 (upload "app") ∅)
  = served (run ctx_demo os_exit_1 (upload "app") ∅).
Proof.
  assert (Hsame : same_but_details os_exit_3 os_exit_1
                    (upload "app") (upload "app")).
  { by split. }
  assert (Hfail : ends_in_failure ctx_demo os_exit_3 (upload "app") ∅).
  { split; [by eexists|]. vm_compute. discriminate. }
  apply (C9_failure_response_is_generic ctx_demo os_exit_3 os_exit_1
           (upload "app") (upload "app") ∅
           {| Filename := "build.zip"; Size := 1024 |} Hsame Hfail eq_refl).
Defined.

(** ** The order of the blocking calls *)

(** The blocking calls of a request whose child is launched are those the
    transition system starts from. *)
Lemma launched_blocking_calls ctx os c f p file d :
  Products ctx !! Param_product c = Some p →
  FormFile_artifact c = Ok file →
  TempDir_result os = Ok d →
  SaveUploadedFile_result os = None →
  Script p ≠ "" →
  StdoutPipe_result os = None →
  StderrPipe_result os = None →
  Start_result os = None →
  blocking_calls (run ctx os c f).2 = drain_then_wait.
Proof.
  intros H1 H2 H3 H4 Hs H5 H6 H7.
  rewrite (run_staged _ _ _ _ _ _ _ H1 H2 H3 H4), defer_world.
  unfold blocking_calls.
  rewrite TryRemoveDir_trace, after_staging_trace_eq, omap_app.
  fold (blocking_calls (run_script os p (path_Join d "artifact") (staged_world f d)).2).
  rewrite run_script_blocking_calls by done.
  unfold cleanup_events. by destruct (RemoveAll_result os).
Qed.

(** ** The handler and the child over the pipes *)

Section PipeFacts.

Variable capacity : N.

(** *** A child that writes more to standard error than the pipe holds *)

Section StderrFirst.

Variables (n : N) (rest : list Action).
Hypothesis too_much : (capacity < n)%N.

Lemma blocked_on_stderr_spawn :
  blocked_on_stderr n rest (spawn (Write Stderr n :: rest)).
Proof.
  split; [done|split; [done|]]. exists n. simpl. split; [done|split; lia].
Qed.

Lemma blocked_on_stderr_step st st' :
  blocked_on_stderr n rest st → step capacity st st' →
  blocked_on_stderr n rest st'.
Proof.
  intros (Hp & Ho & m & Hc & Hm & Hsum) Hstep.
  inversion Hstep as [s n' k rest' ? Hc' Hk Hkn Hfit|s rest' ? Hc'|? Hc'
                     |s k ops ? Hp' Hk Hkb|s ops ? Hp' Hb Hc'|ops ? Hp' Hc'];
    subst.
  - rewrite Hc in Hc'. injection Hc' as <- <- <-. simpl in *.
    split; [done|split; [done|]].
    unfold after_write. destruct (decide (k = m)) as [->|Hne]; [lia|].
    exists (m - k)%N. simpl. split; [done|split; lia].
  - rewrite Hc in Hc'. injection Hc' as _ -> _. lia.
  - rewrite Hc in Hc'. discriminate.
  - rewrite Hp in Hp'. injection Hp' as <- <-. simpl in Hkb. lia.
  - rewrite Hc in Hc'. discriminate.
  - rewrite Hp in Hp'. discriminate.
Qed.

Lemma blocked_on_stderr_invariant st :
  rtc (step capacity) (spawn (Write Stderr n :: rest)) st →
  blocked_on_stderr n rest st.
Proof.
  revert st. apply rtc_ind_r; [apply blocked_on_stderr_spawn|].
  intros y z _ Hstep IH. by eapply blocked_on_stderr_step.
Qed.

Lemma stderr_full_reachable :
  rtc (step capacity) (spawn (Write Stderr n :: rest))
      (stderr_full capacity n rest).
Proof.
  destruct (decide (capacity = 0%N)) as [Hz|Hz].
  - unfold stderr_full, spawn. rewrite Hz, N.sub_0_r. done.
  - apply rtc_once.
    pose proof (step_write capacity Stderr n capacity rest
                  (spawn (Write Stderr n :: rest)) eq_refl) as H.
    simpl in H. unfold after_write in H.
    destruct (decide (capacity = n)); [lia|].
    apply H; lia.
Qed.

Lemma stderr_full_stuck : stuck capacity (stderr_full capacity n rest).
Proof.
  intros st' Hstep.
  inversion Hstep as [s n' k rest' ? Hc' Hk Hkn Hfit|s rest' ? Hc'|? Hc'
                     |s k ops ? Hp' Hk Hkb|s ops ? Hp' Hb Hc'|ops ? Hp' Hc'];
    subst; unfold stderr_full, drain_then_wait in *; simpl in *; simplify_eq;
    simpl in *; lia.
Qed.

End StderrFirst.

(** So the order of lines 193-203 is not free of deadlock for every child. *)
Lemma not_every_script_is_deadlock_free :
  ¬ ∀ script, deadlock_free capacity script.
Proof.
  intros H.
  assert (Hn : (capacity < capacity + 1)%N) by lia.
  destruct (H [Write Stderr (capacity + 1)]
              (stderr_full capacity (capacity + 1) [])
              (stderr_full_reachable _ _ Hn)) as [Hdone|[st' Hstep]].
  - discriminate Hdone.
  - by eapply stderr_full_stuck.
Qed.

(** C2, where the handler departs from it: the handler reads standard
    output to its end before it reads standard error.  A child that writes
    more to standard error than the pipe holds, before it closes standard
    output, blocks in that write; the handler blocks in [ReadAll] on
    standard output; neither can move, and the handler never gets to
    [cmd.Wait]. *)
Theorem C2_stderr_first_deadlocks (n : N) (rest : list Action) :
  (capacity < n)%N →
  deadlocks capacity (Write Stderr n :: rest)
  ∧ never_completes capacity (Write Stderr n :: rest).
Proof.
  intros Hn. split.
  - exists (stderr_full capacity n rest). split; [by apply stderr_full_reachable|].
    split; [by apply stderr_full_stuck|]. intros Hdone. discriminate Hdone.
  - intros st Hst Hdone.
    apply (blocked_on_stderr_invariant n rest Hn) in Hst as (Hp & _).
    unfold completed in Hdone. by rewrite Hp in Hdone.
Qed.

End PipeFacts.

(** One mebibyte to standard error, then one to standard output, over
    pipes of 64 KiB. *)
Lemma C2_stderr_first_deadlocks_witness :
  deadlocks 65536 [Write Stderr 1048576; Write Stdout 1048576]
  ∧ never_completes 65536 [Write Stderr 1048576; Write Stdout 1048576].
Proof.
  apply (C2_stderr_first_deadlocks 65536 1048576 [Write Stdout 1048576]).
  reflexivity.
Defined.

(** ** The shutdown *)

(** Without an interrupt the main flow stays in [util.WaitForInterrupt]:
    no shutdown begins. *)
Lemma no_interrupt_no_shutdown sg :
  interrupt_at sg = None → serve_until_interrupt sg = (Blocked, []).
Proof. intros H. unfold serve_until_interrupt, util_WaitForInterrupt. by rewrite H. Qed.

Lemma srv_Shutdown_late sg now :
  idle_after sg = None ∨ (∃ t, idle_after sg = Some t ∧ shutdown_timeout < t) →
  srv_Shutdown sg now (context_WithTimeout now shutdown_timeout)
  = Some "context deadline exceeded".
Proof.
  unfold srv_Shutdown, context_WithTimeout. intros [->|(t & -> & Ht)]; [done|].
  destruct (Z.leb_spec (now + t) (now + shutdown_timeout)); [lia|done].
Qed.

Lemma srv_Shutdown_in_time sg now t :
  idle_after sg = Some t → t ≤ shutdown_timeout →
  srv_Shutdown sg now (context_WithTimeout now shutdown_timeout)
  = close_listeners sg.
Proof.
  unfold srv_Shutdown, context_WithTimeout. intros -> Ht.
  destruct (Z.leb_spec (now + t) (now + shutdown_timeout)); [done|lia].
Qed.

(** C8: when the interrupt arrives, the main flow calls [srv.Shutdown] with
    a context that expires exactly 3 seconds (3 000 000 000 ns) later; when
    the requests in flight are not done by then, [logger.Fatal] ends the
    process with [os.Exit(1)]; when they are, and the listeners close, the
    action returns [nil]. *)
Theorem C8_shutdown_bounded_by_three_seconds sg now :
  interrupt_at sg = Some now →
  shutdown_timeout = 3000000000
  ∧ MShutdown now (now + 3000000000) ∈ (serve_until_interrupt sg).2
  ∧ (idle_after sg = None ∨ (∃ t, idle_after sg = Some t ∧ 3000000000 < t) →
     (serve_until_interrupt sg).1 = OsExit 1
     ∧ MFatal "Server forced to shutdown: context deadline exceeded"
         ∈ (serve_until_interrupt sg).2)
  ∧ (∀ t, idle_after sg = Some t → t ≤ 3000000000 →
     close_listeners sg = None →
     (serve_until_interrupt sg).1 = ReturnNil).
Proof.
  intros Hint.
  assert (Htimeout : shutdown_timeout = 3000000000) by reflexivity.
  unfold serve_until_interrupt, util_WaitForInterrupt. rewrite Hint.
  split; [done|]. split; [|split].
  - unfold context_WithTimeout. rewrite Htimeout.
    destruct (srv_Shutdown _ _ _); simpl;
      apply elem_of_cons; right; apply elem_of_cons; by left.
  - intros Hlate. rewrite srv_Shutdown_late by (by rewrite Htimeout).
    simpl. split; [done|].
    apply elem_of_cons; right; apply elem_of_cons; right.
    apply elem_of_cons; by left.
  - intros t Hidle Ht Hclose.
    rewrite (srv_Shutdown_in_time _ _ t) by (by rewrite ?Htimeout).
    by rewrite Hclose.
Qed.

Lemma C8_shutdown_bounded_by_three_seconds_witness :
  MShutdown 60000000000 63000000000 ∈ (serve_until_interrupt slow_request).2
  ∧ (serve_until_interrupt slow_request).1 = OsExit 1.
Proof.
  pose proof (C8_shutdown_bounded_by_three_seconds slow_request 60000000000
                eq_refl) as (_ & Hbegin & Hfatal & _).
  split; [exact Hbegin|].
  apply Hfatal. right. exists 5000000000. split; reflexivity.
Defined.


(** ** The command [product new] *)

(** [os.MkdirAll] touches no file and removes nothing. *)
Lemma os_MkdirAll_files sys dir w :
  files (disk (os_MkdirAll sys dir w).2) = files (disk w).
Proof. unfold os_MkdirAll. by destruct (MkdirAll_result sys). Qed.

Lemma os_MkdirAll_stdout sys dir w :
  stdout (os_MkdirAll sys dir w).2 = stdout w.
Proof. unfold os_MkdirAll. by destruct (MkdirAll_result sys). Qed.

Lemma os_MkdirAll_dirs sys dir w :
  dirs (disk w) ⊆ dirs (disk (os_MkdirAll sys dir w).2).
Proof.
  unfold os_MkdirAll. destruct (MkdirAll_result sys); simpl; set_solver.
Qed.

Lemma os_MkdirAll_on_disk sys dir w path :
  on_disk path (disk w) = true →
  on_disk path (disk (os_MkdirAll sys dir w).2) = true.
Proof.
  unfold on_disk. rewrite os_MkdirAll_files.
  pose proof (os_MkdirAll_dirs sys dir w) as Hsub.
  intros [H|H]%orb_true_iff; apply orb_true_iff; [by left|right].
  apply bool_decide_eq_true in H. apply bool_decide_eq_true. set_solver.
Qed.

Lemma os_MkdirAll_result sys dir w :
  (os_MkdirAll sys dir w).1 = MkdirAll_result sys.
Proof. unfold os_MkdirAll. by destruct (MkdirAll_result sys). Qed.

(** Lines 69-91 when something is at the path of the product file, or
    [os.Stat] fails otherwise: nothing is written. *)
Lemma write_product_file_exists (GenerateProductFile : string → string) sys dir name w :
  on_disk (filepath_Join dir (name +:+ ".yml")) (disk w) = true
  ∨ Stat_fault sys ≠ None →
  write_product_file GenerateProductFile sys dir name w =
    (Some os_ErrExist,
     print ("A product named " +:+ name +:+ " already exists." +:+ nl) w).
Proof.
  intros H. unfold write_product_file, os_Stat.
  destruct (Stat_fault sys) as [t|]; [done|].
  destruct H as [->|H]; [done|congruence].
Qed.

(** Lines 69-91 when nothing is at the path: the file is created, and
    written as far as the system allows. *)
Lemma write_product_file_fresh (GenerateProductFile : string → string) sys dir name w :
  on_disk (filepath_Join dir (name +:+ ".yml")) (disk w) = false →
  Stat_fault sys = None →
  let path := filepath_Join dir (name +:+ ".yml") in
  let r := write_product_file GenerateProductFile sys dir name w in
  dirs (disk r.2) = dirs (disk w)
  ∧ match Create_result sys, WriteString_result sys with
    | Some e, _ =>
        r.1 = Some e ∧ files (disk r.2) = files (disk w)
        ∧ stdout r.2 = stdout w ++ ["Cannot open file " +:+ path +:+ " for writing" +:+ nl]
    | None, Some (n, e) =>
        r.1 = Some e
        ∧ files (disk r.2)
          = <[path := String.substring 0 n (GenerateProductFile name)]> (files (disk w))
        ∧ stdout r.2
          = stdout w ++ ["An error occurred while writing to file " +:+ path +:+ nl]
    | None, None =>
        r.1 = None
        ∧ files (disk r.2) = <[path := GenerateProductFile name]> (files (disk w))
        ∧ stdout r.2
          = stdout w ++
            ["Configuration for new product " +:+ name +:+ " scaffolded successfully." +:+ nl;
             "It has been saved in " +:+ path +:+ "." +:+ nl]
    end.
Proof.
  intros Hfresh Hstat. unfold write_product_file, os_Stat.
  rewrite Hstat, Hfresh. simpl. unfold os_Create, file_WriteString.
  destruct (Create_result sys) as [e|]; simpl; [done|].
  destruct (WriteString_result sys) as [[n e]|]; simpl.
  - split; [done|]. split; [done|]. split; [|done]. by rewrite insert_insert_eq.
  - split; [done|]. split; [done|]. split; [by rewrite insert_insert_eq|].
    by rewrite <- app_assoc.
Qed.

Section ProductNewRuns.

Variable GenerateProductFile : string → string.
Variables (sys : CliOS) (config_dir : string) (args : list string) (w : CliWorld).

Lemma name_checked_disk : disk (name_checked args w) = disk w.
Proof. unfold name_checked. by destruct (decide _). Qed.

(** The action, branch by branch. *)
Lemma product_new_cases :
  product_new GenerateProductFile sys config_dir args w =
    match LoadConfig sys config_dir with
    | NotLoaded err =>
        (Some err, print ("Cannot load config" +:+ nl) (name_checked args w))
    | Loaded config_Path =>
        let dir := filepath_Join config_Path "products" in
        match MkdirAll_result sys with
        | Some e =>
            if os_IsExist e
            then write_product_file GenerateProductFile sys dir (Args_First args)
                   (name_checked args w)
            else (Some e, name_checked args w)
        | None =>
            write_product_file GenerateProductFile sys dir (Args_First args)
              (os_MkdirAll sys dir (name_checked args w)).2
        end
    end.
Proof.
  unfold product_new, name_checked.
  destruct (LoadConfig sys config_dir) as [cfg|err]; [|done].
  unfold os_MkdirAll. destruct (MkdirAll_result sys) as [e|]; [|done].
  by destruct (os_IsExist e).
Qed.

(** What a run does to the disk: directories are only added, and the files
    are left as they are or the product file, which was not there, is
    added. *)
Lemma product_new_effect :
  let r := product_new GenerateProductFile sys config_dir args w in
  dirs (disk w) ⊆ dirs (disk r.2)
  ∧ (files (disk r.2) = files (disk w)
     ∨ ∃ cfg content,
         LoadConfig sys config_dir = Loaded cfg
         ∧ on_disk (product_path cfg (Args_First args)) (disk w) = false
         ∧ files (disk r.2)
           = <[product_path cfg (Args_First args) := content]> (files (disk w))).
Proof.
  cbv zeta. rewrite product_new_cases.
  destruct (LoadConfig sys config_dir) as [cfg|err] eqn:Hcfg.
  2: { simpl. rewrite name_checked_disk. split; [done|by left]. }
  cbv zeta.
  set (dir := filepath_Join cfg "products").
  set (w1 := match MkdirAll_result sys with
             | Some _ => name_checked args w
             | None => (os_MkdirAll sys dir (name_checked args w)).2
             end).
  assert (Hfiles : files (disk w1) = files (disk w)).
  { subst w1. destruct (MkdirAll_result sys);
      by rewrite ?os_MkdirAll_files, name_checked_disk. }
  assert (Hdirs : dirs (disk w) ⊆ dirs (disk w1)).
  { subst w1. destruct (MkdirAll_result sys).
    - by rewrite name_checked_disk.
    - pose proof (os_MkdirAll_dirs sys dir (name_checked args w)) as H.
      by rewrite name_checked_disk in H. }
  assert (Hon : on_disk (product_path cfg (Args_First args)) (disk w1) = false →
                on_disk (product_path cfg (Args_First args)) (disk w) = false).
  { unfold on_disk. rewrite Hfiles. intros [H1 H2]%orb_false_iff.
    apply orb_false_iff. split; [done|].
    apply bool_decide_eq_false in H2. apply bool_decide_eq_false. set_solver. }
  assert (Hgoal :
    let r := write_product_file GenerateProductFile sys dir (Args_First args) w1 in
    dirs (disk w) ⊆ dirs (disk r.2)
    ∧ (files (disk r.2) = files (disk w)
       ∨ ∃ cfg' content,
           Loaded cfg = Loaded cfg'
           ∧ on_disk (product_path cfg' (Args_First args)) (disk w) = false
           ∧ files (disk r.2)
             = <[product_path cfg' (Args_First args) := content]> (files (disk w)))).
  { cbv zeta.
    destruct (on_disk (product_path cfg (Args_First args)) (disk w1)) eqn:Hd.
    { rewrite write_product_file_exists by (by left). simpl. split; [done|by left]. }
    destruct (Stat_fault sys) as [t|] eqn:Hs.
    { rewrite write_product_file_exists by (right; congruence).
      simpl. split; [done|by left]. }
    destruct (write_product_file_fresh GenerateProductFile sys dir (Args_First args)
                w1 Hd Hs) as [Hdr Hcase].
    rewrite Hdr. split; [done|].
    destruct (Create_result sys) as [e|].
    { destruct Hcase as (_ & -> & _). by left. }
    destruct (WriteString_result sys) as [[n e]|].
    - destruct Hcase as (_ & -> & _). right. eexists cfg, _. rewrite Hfiles. eauto.
    - destruct Hcase as (_ & -> & _). right. eexists cfg, _. rewrite Hfiles. eauto. }
  subst w1. destruct (MkdirAll_result sys) as [e|]; [|exact Hgoal].
  destruct (os_IsExist e); [exact Hgoal|].
  simpl. rewrite name_checked_disk. split; [done|by left].
Qed.

End ProductNewRuns.

(** X1: [product new] never changes or removes what is on the disk already:
    every file keeps its content and every directory stays, whatever the
    name given and whatever the system refuses. *)
Theorem product_new_keeps_existing_files
    (GenerateProductFile : string → string) sys config_dir args w path content :
  files (disk w) !! path = Some content →
  files (disk (product_new GenerateProductFile sys config_dir args w).2) !! path
  = Some content
  ∧ dirs (disk w)
    ⊆ dirs (disk (product_new GenerateProductFile sys config_dir args w).2).
Proof.
  intros Hfile.
  destruct (product_new_effect GenerateProductFile sys config_dir args w)
    as [Hdirs [->|(cfg & c & _ & Hfresh & ->)]]; [done|].
  split; [|done]. rewrite lookup_insert_ne; [done|].
  intros <-. unfold on_disk in Hfresh. apply orb_false_iff in Hfresh as [H _].
  apply bool_decide_eq_false in H. apply H. by eexists.
Qed.

Lemma product_new_keeps_existing_files_witness :
  files (disk (product_new template_demo cli_demo "/etc/bearpush" ["app"]
                 disk_with_app).2) !! "/etc/bearpush/products/app.yml"
  = Some "script: /srv/deploy.sh".
Proof.
  apply (product_new_keeps_existing_files template_demo cli_demo "/etc/bearpush"
           ["app"] disk_with_app "/etc/bearpush/products/app.yml"
           "script: /srv/deploy.sh").
  reflexivity.
Defined.

Lemma name_checked_stdout args w :
  stdout (name_checked args w)
  = stdout w ++ (if decide (Args_First args = "")
                 then ["Product name not specified!" +:+ nl] else []).
Proof.
  unfold name_checked. destruct (decide _); [done|]. by rewrite app_nil_r.
Qed.

(** The world in which [os.Stat] is called. *)
Lemma path_free_after_mkdir sys cfg args w :
  path_free cfg (Args_First args) w →
  on_disk (product_path cfg (Args_First args))
    (disk (os_MkdirAll sys (filepath_Join cfg "products") (name_checked args w)).2)
  = false.
Proof.
  intros [Hon Hdir]. unfold os_MkdirAll.
  destruct (MkdirAll_result sys); simpl; [by rewrite name_checked_disk|].
  unfold on_disk in *. simpl. rewrite name_checked_disk.
  apply orb_false_iff in Hon as [Hf Hd]. rewrite Hf. simpl.
  apply bool_decide_eq_false in Hd, Hdir. apply bool_decide_eq_false.
  rewrite elem_of_union, elem_of_list_to_set. tauto.
Qed.

(** A run that gets to the product file. *)
Lemma product_new_reaches_file (GenerateProductFile : string → string)
    sys config_dir args w cfg :
  LoadConfig sys config_dir = Loaded cfg →
  mkdir_passes sys →
  product_new GenerateProductFile sys config_dir args w
  = write_product_file GenerateProductFile sys (filepath_Join cfg "products")
      (Args_First args)
      (os_MkdirAll sys (filepath_Join cfg "products") (name_checked args w)).2.
Proof.
  intros Hcfg Hmk. rewrite product_new_cases, Hcfg. cbv zeta.
  unfold mkdir_passes, os_MkdirAll in *.
  destruct (MkdirAll_result sys) as [e|]; [|done]. by rewrite Hmk.
Qed.

(** Something at the path of the product file: the action reports it and
    writes nothing. *)
Lemma product_new_existing (GenerateProductFile : string → string)
    sys config_dir args w cfg :
  LoadConfig sys config_dir = Loaded cfg →
  mkdir_passes sys →
  on_disk (product_path cfg (Args_First args)) (disk w) = true
  ∨ Stat_fault sys ≠ None →
  let r := product_new GenerateProductFile sys config_dir args w in
  r.1 = Some os_ErrExist
  ∧ files (disk r.2) = files (disk w)
  ∧ stdout r.2
    = stdout (name_checked args w)
      ++ ["A product named " +:+ Args_First args +:+ " already exists." +:+ nl].
Proof.
  intros Hcfg Hmk Hex. cbv zeta.
  rewrite (product_new_reaches_file _ _ _ _ _ cfg) by done.
  rewrite write_product_file_exists.
  - simpl. by rewrite os_MkdirAll_files, os_MkdirAll_stdout, name_checked_disk.
  - destruct Hex as [Hon|Hst]; [left|by right].
    apply os_MkdirAll_on_disk. unfold on_disk in *. by rewrite name_checked_disk.
Qed.

(** What a [nil] result tells. *)
Lemma product_new_nil_inv
    (GenerateProductFile : string → string) sys config_dir args w :
  (product_new GenerateProductFile sys config_dir args w).1 = None →
  ∃ cfg,
    LoadConfig sys config_dir = Loaded cfg
    ∧ on_disk (product_path cfg (Args_First args)) (disk w) = false
    ∧ files (disk (product_new GenerateProductFile sys config_dir args w).2)
      = <[product_path cfg (Args_First args) := GenerateProductFile (Args_First args)]>
          (files (disk w))
    ∧ stdout (product_new GenerateProductFile sys config_dir args w).2
      = stdout (name_checked args w) ++
        ["Configuration for new product " +:+ Args_First args
           +:+ " scaffolded successfully." +:+ nl;
         "It has been saved in " +:+ product_path cfg (Args_First args) +:+ "." +:+ nl].
Proof.
  rewrite product_new_cases.
  destruct (LoadConfig sys config_dir) as [cfg|err] eqn:Hcfg; [|done].
  cbv zeta. set (dir := filepath_Join cfg "products").
  set (w1 := match MkdirAll_result sys with
             | Some _ => name_checked args w
             | None => (os_MkdirAll sys dir (name_checked args w)).2
             end).
  assert (Hfiles : files (disk w1) = files (disk w)).
  { subst w1. destruct (MkdirAll_result sys);
      by rewrite ?os_MkdirAll_files, name_checked_disk. }
  assert (Hout : stdout w1 = stdout (name_checked args w)).
  { subst w1. destruct (MkdirAll_result sys); by rewrite ?os_MkdirAll_stdout. }
  assert (Hon : on_disk (product_path cfg (Args_First args)) (disk w1) = false →
                on_disk (product_path cfg (Args_First args)) (disk w) = false).
  { intros H. destruct (on_disk _ (disk w)) eqn:E; [|done]. rewrite <- H. subst w1.
    destruct (MkdirAll_result sys).
    - unfold on_disk in *. by rewrite name_checked_disk.
    - symmetry. apply os_MkdirAll_on_disk. unfold on_disk in *.
      by rewrite name_checked_disk. }
  assert (Hgoal :
    (write_product_file GenerateProductFile sys dir (Args_First args) w1).1 = None →
    ∃ cfg',
      Loaded cfg = Loaded cfg'
      ∧ on_disk (product_path cfg' (Args_First args)) (disk w) = false
      ∧ files (disk (write_product_file GenerateProductFile sys dir (Args_First args) w1).2)
        = <[product_path cfg' (Args_First args) := GenerateProductFile (Args_First args)]>
            (files (disk w))
      ∧ stdout (write_product_file GenerateProductFile sys dir (Args_First args) w1).2
        = stdout (name_checked args w) ++
          ["Configuration for new product " +:+ Args_First args
             +:+ " scaffolded successfully." +:+ nl;
           "It has been saved in " +:+ product_path cfg' (Args_First args) +:+ "." +:+ nl]).
  { destruct (on_disk (product_path cfg (Args_First args)) (disk w1)) eqn:Hd.
    { by rewrite write_product_file_exists by (by left). }
    destruct (Stat_fault sys) as [t|] eqn:Hs.
    { by rewrite write_product_file_exists by (right; congruence). }
    destruct (write_product_file_fresh GenerateProductFile sys dir (Args_First args)
                w1 Hd Hs) as [_ Hcase].
    destruct (Create_result sys) as [e|].
    { destruct Hcase as (-> & _). done. }
    destruct (WriteString_result sys) as [[n e]|].
    { destruct Hcase as (-> & _). done. }
    destruct Hcase as (_ & -> & ->). intros _. exists cfg.
    rewrite Hfiles, Hout. auto. }
  subst w1. destruct (MkdirAll_result sys) as [e|]; [|exact Hgoal].
  destruct (os_IsExist e); [exact Hgoal|done].
Qed.

(** X2: when [product new] returns [nil], the configuration was loaded,
    nothing was at the path of the product file, and the file now holds the
    whole template for the name; the two lines of success are the last
    printed. *)
Theorem product_new_nil_means_written
    (GenerateProductFile : string → string) sys config_dir args w :
  (product_new GenerateProductFile sys config_dir args w).1 = None →
  ∃ cfg,
    LoadConfig sys config_dir = Loaded cfg
    ∧ on_disk (product_path cfg (Args_First args)) (disk w) = false
    ∧ files (disk (product_new GenerateProductFile sys config_dir args w).2)
      = <[product_path cfg (Args_First args) := GenerateProductFile (Args_First args)]>
          (files (disk w))
    ∧ stdout (product_new GenerateProductFile sys config_dir args w).2
      = stdout (name_checked args w) ++
        ["Configuration for new product " +:+ Args_First args
           +:+ " scaffolded successfully." +:+ nl;
         "It has been saved in " +:+ product_path cfg (Args_First args) +:+ "." +:+ nl].
Proof. apply product_new_nil_inv. Qed.


Lemma product_new_nil_means_written_witness :
  files (disk (product_new template_demo cli_demo "/etc/bearpush" ["app"] empty_disk).2)
  = {[ "/etc/bearpush/products/app.yml" := template_demo "app" ]}.
Proof.
  destruct (product_new_nil_means_written template_demo cli_demo "/etc/bearpush"
              ["app"] empty_disk eq_refl) as (cfg & Hcfg & _ & Hfiles & _).
  injection Hcfg as <-. exact Hfiles.
Defined.

(** A run that gets to a free path: the file is created and written as far
    as the system allows. *)
Lemma product_new_fresh (GenerateProductFile : string → string)
    sys config_dir args w cfg :
  LoadConfig sys config_dir = Loaded cfg →
  mkdir_passes sys →
  Stat_fault sys = None →
  path_free cfg (Args_First args) w →
  let name := Args_First args in
  let path := product_path cfg name in
  let r := product_new GenerateProductFile sys config_dir args w in
  match Create_result sys, WriteString_result sys with
  | Some e, _ =>
      r.1 = Some e ∧ files (disk r.2) = files (disk w)
      ∧ stdout r.2 = stdout (name_checked args w)
                     ++ ["Cannot open file " +:+ path +:+ " for writing" +:+ nl]
  | None, Some (n, e) =>
      r.1 = Some e
      ∧ files (disk r.2)
        = <[path := String.substring 0 n (GenerateProductFile name)]> (files (disk w))
      ∧ stdout r.2 = stdout (name_checked args w)
                     ++ ["An error occurred while writing to file " +:+ path +:+ nl]
  | None, None =>
      r.1 = None
      ∧ files (disk r.2) = <[path := GenerateProductFile name]> (files (disk w))
      ∧ stdout r.2
        = stdout (name_checked args w) ++
          ["Configuration for new product " +:+ name +:+ " scaffolded successfully." +:+ nl;
           "It has been saved in " +:+ path +:+ "." +:+ nl]
  end.
Proof.
  intros Hcfg Hmk Hst Hfree. cbv zeta.
  rewrite (product_new_reaches_file _ _ _ _ _ cfg) by done.
  pose proof (path_free_after_mkdir sys cfg args w Hfree) as Hd.
  destruct (write_product_file_fresh GenerateProductFile sys
              (filepath_Join cfg "products") (Args_First args) _ Hd Hst) as [_ Hcase].
  rewrite os_MkdirAll_files, os_MkdirAll_stdout, name_checked_disk in Hcase.
  exact Hcase.
Qed.

(** After a run, what a file at the path of the product file means for the
    next run. *)
Lemma product_new_blocked (GenerateProductFile : string → string)
    sys config_dir args w cfg content :
  LoadConfig sys config_dir = Loaded cfg →
  mkdir_passes sys →
  files (disk w) !! product_path cfg (Args_First args) = Some content →
  let r := product_new GenerateProductFile sys config_dir args w in
  r.1 = Some os_ErrExist ∧ files (disk r.2) = files (disk w).
Proof.
  intros Hcfg Hmk Hfile. cbv zeta.
  destruct (product_new_existing GenerateProductFile sys config_dir args w cfg
              Hcfg Hmk) as (H1 & H2 & _); [|done].
  left. unfold on_disk. rewrite Hfile. apply orb_true_iff. left.
  by apply bool_decide_eq_true.
Qed.

(** X3: a product is scaffolded once.  After a run of [product new] that
    returned [nil], a second run for the same name and configuration returns
    [os.ErrExist] and leaves every file as the first run left it, the new
    product file with its template included. *)
Theorem product_new_second_run_refused
    (GenerateProductFile : string → string) sys sys' config_dir config_dir' args w :
  (product_new GenerateProductFile sys config_dir args w).1 = None →
  LoadConfig sys' config_dir' = LoadConfig sys config_dir →
  mkdir_passes sys' →
  let w1 := (product_new GenerateProductFile sys config_dir args w).2 in
  let r := product_new GenerateProductFile sys' config_dir' args w1 in
  r.1 = Some os_ErrExist ∧ files (disk r.2) = files (disk w1).
Proof.
  intros Hnil Hsame Hmk.
  destruct (product_new_nil_inv GenerateProductFile sys config_dir args w Hnil)
    as (cfg & Hcfg & _ & Hfiles & _).
  cbv zeta.
  apply (product_new_blocked _ _ _ _ _ cfg (GenerateProductFile (Args_First args)));
    [congruence|done|].
  rewrite Hfiles. apply lookup_insert_eq.
Qed.

Lemma product_new_second_run_refused_witness :
  let w1 := (product_new template_demo cli_demo "/etc/bearpush" ["app"] empty_disk).2 in
  (product_new template_demo cli_demo "/etc/bearpush" ["app"] w1).1 = Some os_ErrExist
  ∧ files (disk (product_new template_demo cli_demo "/etc/bearpush" ["app"] w1).2)
    = files (disk w1).
Proof.
  apply (product_new_second_run_refused template_demo cli_demo cli_demo
           "/etc/bearpush" "/etc/bearpush" ["app"] empty_disk);
    [reflexivity|reflexivity|exact I].
Defined.

(** X4: a write that fails half-way leaves the product file on the disk with
    the part of the template that was written, and the error of the write is
    returned.  The next run for the same name then finds the file, returns
    [os.ErrExist] and does not complete it. *)
Theorem product_new_partial_file_blocks_retry
    (GenerateProductFile : string → string) sys sys' config_dir config_dir' args w
    cfg n e :
  LoadConfig sys config_dir = Loaded cfg →
  mkdir_passes sys →
  Stat_fault sys = None →
  path_free cfg (Args_First args) w →
  Create_result sys = None →
  WriteString_result sys = Some (n, e) →
  LoadConfig sys' config_dir' = Loaded cfg →
  mkdir_passes sys' →
  let r1 := product_new GenerateProductFile sys config_dir args w in
  let r2 := product_new GenerateProductFile sys' config_dir' args r1.2 in
  r1.1 = Some e
  ∧ files (disk r1.2) !! product_path cfg (Args_First args)
    = Some (String.substring 0 n (GenerateProductFile (Args_First args)))
  ∧ r2.1 = Some os_ErrExist
  ∧ files (disk r2.2) = files (disk r1.2).
Proof.
  intros Hcfg Hmk Hst Hfree Hcr Hwr Hcfg' Hmk'. cbv zeta.
  pose proof (product_new_fresh GenerateProductFile sys config_dir args w cfg
                Hcfg Hmk Hst Hfree) as Hcase.
  cbv zeta in Hcase. rewrite Hcr, Hwr in Hcase. destruct Hcase as (Hret & Hfiles & _).
  assert (Hfile : files (disk (product_new GenerateProductFile sys config_dir args w).2)
                  !! product_path cfg (Args_First args)
                  = Some (String.substring 0 n (GenerateProductFile (Args_First args)))).
  { rewrite Hfiles. apply lookup_insert_eq. }
  split; [done|]. split; [done|].
  by apply (product_new_blocked _ _ _ _ _ cfg
              (String.substring 0 n (GenerateProductFile (Args_First args)))).
Qed.

Lemma product_new_partial_file_blocks_retry_witness :
  let r1 := product_new template_demo cli_disk_full "/etc/bearpush" ["app"] empty_disk in
  let r2 := product_new template_demo cli_demo "/etc/bearpush" ["app"] r1.2 in
  files (disk r1.2) !! "/etc/bearpush/products/app.yml" = Some "name: "
  ∧ r2.1 = Some os_ErrExist
  ∧ files (disk r2.2) = files (disk r1.2).
Proof.
  destruct (product_new_partial_file_blocks_retry template_demo cli_disk_full cli_demo
              "/etc/bearpush" "/etc/bearpush" ["app"] empty_disk "/etc/bearpush" 6%nat
              {| err_kind := KOther;
                 err_text := "write /etc/bearpush/products/app.yml: no space left on device" |})
    as (_ & H2 & H3 & H4);
    [reflexivity|exact I|reflexivity|split; reflexivity|reflexivity|reflexivity
    |reflexivity|exact I|].
  cbv zeta. split; [exact H2|]. split; [exact H3|exact H4].
Defined.

(** X5: a missing product name does not stop the action.  After the line
    "Product name not specified!" it goes on with the empty name and, the
    system refusing nothing, writes the template for the empty name to the
    file [.yml] of the product directory and returns [nil]. *)
Theorem product_new_without_name_scaffolds
    (GenerateProductFile : string → string) sys config_dir args w cfg :
  Args_First args = "" →
  LoadConfig sys config_dir = Loaded cfg →
  mkdir_passes sys →
  Stat_fault sys = None →
  path_free cfg "" w →
  Create_result sys = None →
  WriteString_result sys = None →
  let r := product_new GenerateProductFile sys config_dir args w in
  r.1 = None
  ∧ files (disk r.2)
    = <[filepath_Join (filepath_Join cfg "products") ".yml" := GenerateProductFile ""]>
        (files (disk w))
  ∧ stdout r.2
    = stdout w ++
      ["Product name not specified!" +:+ nl;
       "Configuration for new product  scaffolded successfully." +:+ nl;
       "It has been saved in " +:+ filepath_Join (filepath_Join cfg "products") ".yml"
         +:+ "." +:+ nl].
Proof.
  intros Hname Hcfg Hmk Hst Hfree Hcr Hwr. cbv zeta.
  rewrite <- Hname in Hfree.
  pose proof (product_new_fresh GenerateProductFile sys config_dir args w cfg
                Hcfg Hmk Hst Hfree) as Hcase.
  cbv zeta in Hcase. rewrite Hcr, Hwr, Hname in Hcase.
  destruct Hcase as (Hret & Hfiles & Hout).
  split; [done|]. split; [exact Hfiles|].
  rewrite Hout, name_checked_stdout, Hname. simpl. by rewrite <- app_assoc.
Qed.

Lemma product_new_without_name_scaffolds_witness :
  files (disk (product_new template_demo cli_demo "/etc/bearpush" [] empty_disk).2)
  = {[ "/etc/bearpush/products/.yml" := template_demo "" ]}.
Proof.
  destruct (product_new_without_name_scaffolds template_demo cli_demo "/etc/bearpush"
              [] empty_disk "/etc/bearpush")
    as (_ & H & _);
    [reflexivity|reflexivity|exact I|reflexivity|split; reflexivity|reflexivity
    |reflexivity|].
  exact H.
Defined.

(** X6: when [os.Stat] fails for another reason than a missing file (say,
    permission denied), the action reports that the product exists already
    and returns [os.ErrExist], also when nothing is at the path; the error
    of [os.Stat] is neither printed nor returned, and no file is written. *)
Theorem product_new_stat_failure_reported_as_existing
    (GenerateProductFile : string → string) sys config_dir args w cfg t :
  LoadConfig sys config_dir = Loaded cfg →
  mkdir_passes sys →
  Stat_fault sys = Some t →
  let r := product_new GenerateProductFile sys config_dir args w in
  r.1 = Some os_ErrExist
  ∧ files (disk r.2) = files (disk w)
  ∧ stdout r.2
    = stdout (name_checked args w)
      ++ ["A product named " +:+ Args_First args +:+ " already exists." +:+ nl].
Proof.
  intros Hcfg Hmk Hst.
  apply (product_new_existing _ _ _ _ _ cfg); [done|done|].
  right. congruence.
Qed.

Lemma product_new_stat_failure_reported_as_existing_witness :
  path_free "/etc/bearpush" "app" empty_disk
  ∧ (product_new template_demo cli_stat_denied "/etc/bearpush" ["app"] empty_disk).1
    = Some os_ErrExist
  ∧ stdout (product_new template_demo cli_stat_denied "/etc/bearpush" ["app"]
              empty_disk).2
    = ["A product named app already exists." +:+ nl].
Proof.
  destruct (product_new_stat_failure_reported_as_existing template_demo cli_stat_denied
              "/etc/bearpush" ["app"] empty_disk "/etc/bearpush"
              "stat /etc/bearpush/products/app.yml: permission denied")
    as (H1 & _ & H3); [reflexivity|exact I|reflexivity|].
  split; [split; reflexivity|]. split; [exact H1|exact H3].
Defined.

(** X7: the two failures before the product file.  A configuration that
    cannot be loaded is reported with the line "Cannot load config"; an error
    of [os.MkdirAll] other than "exists" is returned without any line
    printed.  In both cases the error is returned as it is and the disk is
    left alone. *)
Theorem product_new_early_failure
    (GenerateProductFile : string → string) sys config_dir args w err :
  LoadConfig sys config_dir = NotLoaded err
  ∨ (∃ cfg, LoadConfig sys config_dir = Loaded cfg)
    ∧ MkdirAll_result sys = Some err ∧ os_IsExist err = false →
  let r := product_new GenerateProductFile sys config_dir args w in
  r.1 = Some err
  ∧ disk r.2 = disk w
  ∧ stdout r.2
    = stdout (name_checked args w)
      ++ match LoadConfig sys config_dir with
         | NotLoaded _ => ["Cannot load config" +:+ nl]
         | Loaded _ => []
         end.
Proof.
  intros H. cbv zeta. rewrite product_new_cases.
  destruct H as [->|([cfg ->] & Hmk & Hex)].
  - simpl. by rewrite name_checked_disk.
  - cbv zeta. unfold os_MkdirAll. rewrite Hmk, Hex. simpl.
    by rewrite name_checked_disk, app_nil_r.
Qed.

Lemma product_new_early_failure_witness :
  disk (product_new template_demo cli_mkdir_denied "/etc/bearpush" ["app"] empty_disk).2
  = disk empty_disk
  ∧ stdout (product_new template_demo cli_mkdir_denied "/etc/bearpush" ["app"]
              empty_disk).2
    = [].
Proof.
  destruct (product_new_early_failure template_demo cli_mkdir_denied "/etc/bearpush"
              ["app"] empty_disk
              {| err_kind := KOther;
                 err_text := "mkdir /etc/bearpush: permission denied" |})
    as (_ & Hdisk & Hout).
  { right. split; [by exists "/etc/bearpush"|]. split; reflexivity. }
  split; [exact Hdisk|exact Hout].
Defined.

(** ** More on the upload handler *)

(** The script block calls [cmd.Start] once when the product has a script,
    whatever the pipes gave, and not at all otherwise. *)
Lemma run_script_starts os p a w :
  List.filter is_Start (trace (run_script os p a w).2)
  = List.filter is_Start (trace w)
    ++ (if decide (Script p = "") then []
        else [EvStart (script_cmd os p a) (Start_result os)]).
Proof.
  script_cases os p w; destruct (decide (Script p = "")); try tauto;
    rewrite ?List.filter_app; simpl; rewrite ?app_nil_r, <- ?app_assoc;
    reflexivity.
Qed.

(** When the block does not end well, it has logged an error. *)
Lemma run_script_failure_logged os p a w :
  match (run_script os p a w).1 with
  | Returned false => True
  | _ => ∃ msg, EvLog LError msg ∈ trace (run_script os p a w).2
  end.
Proof.
  script_cases os p w; try exact I; eexists;
    repeat (apply elem_of_app;
            first [right; apply list_elem_of_singleton; reflexivity | left]).
Qed.

Lemma cleanup_events_no_start os d :
  List.filter is_Start (cleanup_events os d) = [].
Proof. unfold cleanup_events. by destruct (RemoveAll_result os). Qed.

(** X8: one upload starts at most one process.  [cmd.Start] is called once,
    with the command of the product's script, when the product is known, the
    artifact is staged and the script path is not empty; in every other
    request it is not called. *)
Theorem one_start_per_request ctx os c f :
  List.filter is_Start (trace (run ctx os c f).2)
  = match Products ctx !! Param_product c, FormFile_artifact c,
          TempDir_result os, SaveUploadedFile_result os with
    | Some p, Ok _, Ok d, None =>
        if decide (Script p = "") then []
        else [EvStart (script_cmd os p (path_Join d "artifact")) (Start_result os)]
    | _, _, _, _ => []
    end.
Proof.
  pose proof (run_trace ctx os c f) as Ht.
  destruct (Products ctx !! Param_product c) as [p|] eqn:H1; [|by rewrite Ht].
  destruct (FormFile_artifact c) as [file|e] eqn:H2; [|by rewrite Ht].
  destruct (TempDir_result os) as [d|e] eqn:H3; [|by rewrite Ht].
  destruct (SaveUploadedFile_result os) as [e|] eqn:H4.
  { rewrite Ht, List.filter_app, cleanup_events_no_start. done. }
  clear Ht. rewrite (run_staged _ _ _ _ _ _ _ H1 H2 H3 H4), defer_world.
  rewrite TryRemoveDir_trace, List.filter_app, cleanup_events_no_start, app_nil_r.
  rewrite after_staging_trace_eq, run_script_starts. done.
Qed.


(** X10: the handler panics in one situation only: the product has a
    script, the artifact is staged, and [cmd.StdoutPipe] or [cmd.StderrPipe]
    failed; the panic is the nil dereference of [io.ReadAll].  No other
    failure of a request makes the handler panic. *)
Theorem panic_only_without_pipe ctx os c f msg :
  (run ctx os c f).1 = Panicked msg →
  msg = nil_dereference
  ∧ ∃ p file d,
      Products ctx !! Param_product c = Some p
      ∧ FormFile_artifact c = Ok file
      ∧ TempDir_result os = Ok d
      ∧ SaveUploadedFile_result os = None
      ∧ Script p ≠ ""
      ∧ (StdoutPipe_result os ≠ None ∨ StderrPipe_result os ≠ None).
Proof.
  destruct (Products ctx !! Param_product c) as [p|] eqn:H1.
  2: { by rewrite run_unknown. }
  destruct (FormFile_artifact c) as [file|e] eqn:H2.
  2: { by rewrite (run_bad_upload _ _ _ _ _ _ H1 H2). }
  destruct (TempDir_result os) as [d|e] eqn:H3.
  2: { by rewrite (run_no_tempdir _ _ _ _ _ _ _ H1 H2 H3). }
  destruct (SaveUploadedFile_result os) as [e|] eqn:H4.
  { rewrite (run_not_saved _ _ _ _ _ _ _ _ H1 H2 H3 H4).
    by rewrite defer_outcome by apply TryRemoveDir_returns. }
  rewrite (run_staged_outcome _ _ _ _ _ _ _ H1 H2 H3 H4).
  pose proof (after_staging_cases os c p d (staged_world f d) eq_refl) as H.
  destruct (decide (Script p = "")) as [Hs|Hs].
  { rewrite run_script_skip in H by done. destruct H as [-> _]. done. }
  destruct (decide (StdoutPipe_result os ≠ None ∨ StderrPipe_result os ≠ None))
    as [Hpipe|Hpipe].
  - rewrite run_script_nil_pipe in H by done. destruct H as [-> _].
    intros [= <-]. split; [done|]. by exists p, file, d.
  - rewrite run_script_waits in H; [| done | done | |].
    + destruct (bool_decide _); destruct H as [-> _]; done.
    + destruct (StdoutPipe_result os); [|done]. exfalso. apply Hpipe. by left.
    + destruct (StderrPipe_result os); [|done]. exfalso. apply Hpipe. by right.
Qed.

Lemma panic_only_without_pipe_witness :
  ∃ p file d,
    Products ctx_demo !! Param_product (upload "app") = Some p
    ∧ FormFile_artifact (upload "app") = Ok file
    ∧ TempDir_result os_no_stdout_pipe = Ok d
    ∧ SaveUploadedFile_result os_no_stdout_pipe = None
    ∧ Script p ≠ ""
    ∧ (StdoutPipe_result os_no_stdout_pipe ≠ None
       ∨ StderrPipe_result os_no_stdout_pipe ≠ None).
Proof.
  exact (proj2 (panic_only_without_pipe ctx_demo os_no_stdout_pipe (upload "app") ∅
                  nil_dereference eq_refl)).
Defined.

(** X11: no server-side failure goes unlogged.  Whenever the caller gets a
    500 or a 422, the handler has written a line at level Error to the
    log. *)
Theorem failure_is_logged ctx os c f :
  status_of (served (run ctx os c f)) = Some http.StatusInternalServerError
  ∨ status_of (served (run ctx os c f)) = Some http.StatusUnprocessableEntity →
  ∃ msg, EvLog LError msg ∈ trace (run ctx os c f).2.
Proof.
  destruct (Products ctx !! Param_product c) as [p|] eqn:H1.
  2: { rewrite run_unknown by done. intros [H|H]; discriminate H. }
  destruct (FormFile_artifact c) as [file|e] eqn:H2.
  2: { rewrite (run_bad_upload _ _ _ _ _ _ H1 H2). intros [H|H]; discriminate H. }
  destruct (TempDir_result os) as [d|e] eqn:H3.
  2: { rewrite (run_no_tempdir _ _ _ _ _ _ _ H1 H2 H3). intros _. exists e.
       simpl. right. left. }
  destruct (SaveUploadedFile_result os) as [e|] eqn:H4.
  { intros _. pose proof (run_trace ctx os c f) as Ht.
    rewrite H1, H2, H3, H4 in Ht. rewrite Ht. eexists.
    apply elem_of_app. left. do 2 right. left. }
  rewrite (served_staged _ _ _ _ _ _ _ H1 H2 H3 H4).
  rewrite (run_staged _ _ _ _ _ _ _ H1 H2 H3 H4), defer_world.
  setoid_rewrite TryRemoveDir_trace. setoid_rewrite after_staging_trace_eq.
  pose proof (run_script_failure_logged os p (path_Join d "artifact")
                (staged_world f d)) as Hlog.
  destruct (run_script os p (path_Join d "artifact") (staged_world f d)).1
    as [[|]|m].
  - intros _. destruct Hlog as [msg Hmsg]. exists msg. apply elem_of_app. by left.
  - intros [H|H]; discriminate H.
  - intros _. destruct Hlog as [msg Hmsg]. exists msg. apply elem_of_app. by left.
Qed.

Lemma failure_is_logged_witness :
  ∃ msg, EvLog LError msg ∈ trace (run ctx_demo os_exit_3 (upload "app") ∅).2.
Proof.
  apply (failure_is_logged ctx_demo os_exit_3 (upload "app") ∅).
  right. reflexivity.
Defined.

Lemma script_event_not_RemoveAll os p cmd l dir e :
  Forall (script_event os p cmd) l → EvRemoveAll dir e ∉ l.
Proof.
  intros Hall Hin. rewrite Forall_forall in Hall. by destruct (Hall _ Hin).
Qed.

(** X12: the handler saves and removes nothing but its own.  A file is
    saved only to [artifact] in the temporary directory that
    [ioutil.TempDir] has just returned, and [os.RemoveAll] is only asked for
    that directory; a request that gets no temporary directory saves and
    removes nothing. *)
Theorem saves_and_removes_in_own_tempdir ctx os c f :
  (∀ dst err, EvSave dst err ∈ trace (run ctx os c f).2 →
     ∃ d, TempDir_result os = Ok d ∧ dst = path_Join d "artifact"
          ∧ err = SaveUploadedFile_result os)
  ∧ (∀ dir err, EvRemoveAll dir err ∈ trace (run ctx os c f).2 →
       TempDir_result os = Ok dir ∧ err = RemoveAll_result os).
Proof.
  pose proof (run_trace ctx os c f) as Ht.
  destruct (Products ctx !! Param_product c) as [p|] eqn:H1.
  2: { rewrite Ht. split; intros ? ? Hin; by apply elem_of_nil in Hin. }
  destruct (FormFile_artifact c) as [file|e0] eqn:H2.
  2: { rewrite Ht. split; intros ? ? Hin;
         apply list_elem_of_singleton in Hin; discriminate. }
  destruct (TempDir_result os) as [d|e0] eqn:H3.
  2: { rewrite Ht. split; intros ? ? Hin;
         repeat (apply elem_of_cons in Hin as [?|Hin]; [discriminate|]);
         by apply elem_of_nil in Hin. }
  destruct (SaveUploadedFile_result os) as [e0|] eqn:H4.
  - rewrite Ht. split; intros ? ? Hin; apply elem_of_app in Hin as [Hin|Hin].
    + apply elem_of_cons in Hin as [?|Hin]; [discriminate|].
      apply elem_of_cons in Hin as [[= -> ->]|Hin]; [by exists d|].
      apply elem_of_cons in Hin as [?|Hin]; [discriminate|].
      by apply elem_of_nil in Hin.
    + apply cleanup_events_inv in Hin as [?|[? ?]]; discriminate.
    + repeat (apply elem_of_cons in Hin as [?|Hin]; [discriminate|]).
      by apply elem_of_nil in Hin.
    + apply cleanup_events_inv in Hin as [[= -> ->]|[? ?]]; [done|discriminate].
  - destruct Ht as (l & Ht & Hall). rewrite Ht.
    split; intros ? ? Hin.
    + apply elem_of_cons in Hin as [?|Hin]; [discriminate|].
      apply elem_of_cons in Hin as [[= -> ->]|Hin]; [by exists d|].
      apply elem_of_app in Hin as [Hin|Hin].
      * by apply (script_event_not_Save _ _ _ _ _ _ Hall) in Hin.
      * apply cleanup_events_inv in Hin as [?|[? ?]]; discriminate.
    + apply elem_of_cons in Hin as [?|Hin]; [discriminate|].
      apply elem_of_cons in Hin as [?|Hin]; [discriminate|].
      apply elem_of_app in Hin as [Hin|Hin].
      * by apply (script_event_not_RemoveAll _ _ _ _ _ _ Hall) in Hin.
      * apply cleanup_events_inv in Hin as [[= -> ->]|[? ?]]; [done|discriminate].
Qed.

(** X13: a script that cannot be started does not end the handler early.
    After the failed [cmd.Start] the handler still reads from both pipes,
    which [Start] has closed, and calls [cmd.Wait], which reports that the
    command was not started; the one failure is logged in four lines at
    level Error, and the caller gets the 422 of a failed pipeline. *)
Theorem failed_start_runs_to_wait ctx os c f p file d e :
  Products ctx !! Param_product c = Some p →
  FormFile_artifact c = Ok file →
  TempDir_result os = Ok d →
  SaveUploadedFile_result os = None →
  Script p ≠ "" →
  StdoutPipe_result os = None →
  StderrPipe_result os = None →
  Start_result os = Some e →
  (run ctx os c f).1 = Returned tt
  ∧ served (run ctx os c f) = Some resp_pipeline_errored
  ∧ trace (run ctx os c f).2
    = [EvTempDir (Ok d);
       EvSave (path_Join d "artifact") None;
       EvStart (script_cmd os p (path_Join d "artifact")) (Some e);
       EvLog LError ("Cannot start: " +:+ e +:+ nl);
       EvReadAll Stdout;
       EvLog LError ("Cannot read stdout: read |0: file already closed" +:+ nl);
       EvReadAll Stderr;
       EvLog LError ("Cannot read stderr: read |0: file already closed" +:+ nl);
       EvWait (Some "exec: not started");
       EvLog LError ("Command failed: exec: not started" +:+ nl)]
      ++ cleanup_events os d.
Proof.
  intros H1 H2 H3 H4 Hs H5 H6 H7. split; [|split].
  - rewrite (run_staged_outcome _ _ _ _ _ _ _ H1 H2 H3 H4).
    pose proof (after_staging_cases os c p d (staged_world f d) eq_refl) as H.
    rewrite run_script_waits in H by done.
    destruct (bool_decide _); tauto.
  - rewrite served_run. unfold response_of. rewrite H1, H2, H3, H4, H5, H6, H7.
    destruct (decide (Script p = "")); [done|].
    rewrite bool_decide_eq_true_2; [done|]. by left.
  - rewrite (run_staged _ _ _ _ _ _ _ H1 H2 H3 H4), defer_world.
    rewrite TryRemoveDir_trace, after_staging_trace_eq.
    by rewrite (run_script_start_failed _ _ _ _ e) by done.
Qed.

Lemma failed_start_runs_to_wait_witness :
  served (run ctx_demo os_no_start (upload "app") ∅) = Some resp_pipeline_errored
  ∧ blocking_calls (run ctx_demo os_no_start (upload "app") ∅).2 = drain_then_wait.
Proof.
  assert (Hs : Script {| Script := "/srv/deploy.sh" |} ≠ "") by discriminate.
  destruct (failed_start_runs_to_wait ctx_demo os_no_start (upload "app") ∅
              {| Script := "/srv/deploy.sh" |} {| Filename := "build.zip"; Size := 1024 |}
              "/tmp/bearpush-42" "fork/exec /srv/deploy.sh: permission denied"
              eq_refl eq_refl eq_refl eq_refl Hs eq_refl eq_refl eq_refl)
    as (_ & Hserved & Htrace).
  split; [exact Hserved|].
  unfold blocking_calls. rewrite Htrace. reflexivity.
Defined.
